(** * baresipy: the BareSIP driver and its Identity, embedded in Rocq

    The source is one Python module, [baresipy/__init__.py].  It holds the
    dataclass [Identity] and the thread class [BareSIP], which drives the
    external [baresip] program through a pseudo-terminal: [run] reads the
    program's output line by line and dispatches on substrings, the other
    methods write commands to the program.

    The embedding is shallow.  Python [str] values are Rocq strings whose
    characters stand for code points below 256; the object's attributes are
    the fields of a record; every method is a function in a small monad that
    threads the record, collects the observable effects (lines written to the
    program, log records, calls of the overridable [handle_*] methods,
    sleeps) in program order, and may raise a Python exception. *)

From Stdlib Require Import String Ascii List ZArith Lia Bool Arith.
From Stdlib Require Import Numbers.DecimalString Numbers.DecimalPos.
Import ListNotations.
Open Scope list_scope.
Open Scope string_scope.

(** ** Python string operations used by the source *)

Module Py.

(** [s.startswith(p)] *)
Fixpoint startswith (p s : string) : bool :=
  match p with
  | "" => true
  | String a p' =>
      match s with
      | "" => false
      | String b s' => if Ascii.eqb a b then startswith p' s' else false
      end
  end.

(** [p in s] on strings: [p] occurs in [s] as a substring. *)
Fixpoint contains (p s : string) : bool :=
  if startswith p s then true
  else match s with
       | "" => false
       | String _ s' => contains p s'
       end.

(** Number of positions of [s] at which [p] occurs. *)
Fixpoint count_sub (p s : string) : nat :=
  (if startswith p s then 1 else 0) +
  match s with
  | "" => 0
  | String _ s' => count_sub p s'
  end.

(** [str.isspace] on one character, for code points below 256:
    TAB..CR, FS..US, space, NEL and NBSP. *)
Definition isspace (c : ascii) : bool :=
  let n := nat_of_ascii c in
  (((9 <=? n) && (n <=? 13)) || ((28 <=? n) && (n <=? 32))
   || (n =? 133) || (n =? 160))%nat.

Fixpoint lstrip (s : string) : string :=
  match s with
  | "" => ""
  | String c s' => if isspace c then lstrip s' else s
  end.

Fixpoint rstrip (s : string) : string :=
  match s with
  | "" => ""
  | String c s' =>
      match rstrip s' with
      | "" => if isspace c then "" else String c ""
      | r => String c r
      end
  end.

(** [s.strip()] *)
Definition strip (s : string) : string := rstrip (lstrip s).

(** [s.split(sep)] for a non-empty [sep]: the pieces between the
    non-overlapping occurrences of [sep], scanned from the left.  [skip]
    counts the characters of a matched separator still to be dropped; the
    result is the piece being read and the pieces after it. *)
Fixpoint split_go (sep : string) (skip : nat) (s : string)
  : string * list string :=
  match s with
  | "" => ("", [])
  | String c s' =>
      match skip with
      | S k => split_go sep k s'
      | O =>
          if startswith sep s
          then ("", let '(p, ps) := split_go sep (String.length sep - 1) s'
                    in p :: ps)
          else let '(p, ps) := split_go sep 0 s' in (String c p, ps)
      end
  end.

Definition split (s sep : string) : list string :=
  let '(p, ps) := split_go sep 0 s in p :: ps.

(** [s[:-1]] *)
Fixpoint drop_last (s : string) : string :=
  match s with
  | "" => ""
  | String c s' =>
      match s' with
      | "" => ""
      | String _ _ => String c (drop_last s')
      end
  end.

(** [sep.join(l)] *)
Definition join (sep : string) (l : list string) : string :=
  String.concat sep l.

(** [str(n)] for an [int]. *)
Definition str_of_int (n : Z) : string :=
  NilEmpty.string_of_int (Z.to_int n).

Definition isdigit (c : ascii) : bool :=
  let n := nat_of_ascii c in ((48 <=? n) && (n <=? 57))%nat.

Definition digit_value (c : ascii) : Z := Z.of_nat (nat_of_ascii c) - 48.

(** [int(s)] for a string of decimal digits (the interpreter's limit on
    the number of digits is not modelled). *)
Definition int_of_digits (s : string) : Z :=
  fold_left (fun acc c => 10 * acc + digit_value c)%Z
            (list_ascii_of_string s) 0%Z.

(** [posixpath.join(a, b)] *)
Fixpoint endswith_slash (s : string) : bool :=
  match s with
  | "" => false
  | String c "" => Ascii.eqb c "/"
  | String _ s' => endswith_slash s'
  end.

Definition path_join (a b : string) : string :=
  if startswith "/" b then b
  else if (a =? "") || endswith_slash a then a ++ b
  else a ++ "/" ++ b.

(** Carriage return and line feed, which end every line a pseudo-terminal
    delivers. *)
Definition CR : ascii := ascii_of_nat 13.
Definition LF : ascii := ascii_of_nat 10.
Definition CRLF : string := String CR (String LF "").

(** *** The regular expression of the DTMF rule

    [re.search(r"received DTMF: '(.)' \(duration=(\d+)\)", out)]: the
    leftmost position where the literal text, one character other than a
    line feed, the literal text, a maximal non-empty run of digits and a
    closing parenthesis follow each other.  A shorter run of digits cannot
    be followed by the parenthesis, so the greedy match is the only one. *)

Fixpoint strip_prefix (p s : string) : option string :=
  match p with
  | "" => Some s
  | String a p' =>
      match s with
      | "" => None
      | String b s' => if Ascii.eqb a b then strip_prefix p' s' else None
      end
  end.

Fixpoint span_digits (s : string) : string * string :=
  match s with
  | "" => ("", "")
  | String c s' =>
      if isdigit c
      then let '(d, r) := span_digits s' in (String c d, r)
      else ("", s)
  end.

Definition dtmf_match_here (s : string) : option (ascii * string) :=
  match strip_prefix "received DTMF: '" s with
  | Some (String c r1) =>
      if Ascii.eqb c LF then None
      else match strip_prefix "' (duration=" r1 with
           | Some r2 =>
               let '(d, r3) := span_digits r2 in
               match d with
               | "" => None
               | _ => if startswith ")" r3 then Some (c, d) else None
               end
           | None => None
           end
  | _ => None
  end.

Fixpoint dtmf_search (s : string) : option (ascii * string) :=
  match dtmf_match_here s with
  | Some m => Some m
  | None => match s with
            | "" => None
            | String _ s' => dtmf_search s'
            end
  end.

End Py.

(** ** The store of Python list objects

    [Identity.flags] is a Python list, an object that several names can
    refer to and that [append] changes in place.  The store maps an address
    to the contents of the list object that lives there. *)

Module Store.

Definition loc := nat.
Definition heap := list (list string).

Definition deref (h : heap) (l : loc) : list string := nth l h [].

Fixpoint assign (l : loc) (v : list string) (h : heap) : heap :=
  match h, l with
  | [], _ => []
  | _ :: h', O => v :: h'
  | x :: h', S l' => x :: assign l' v h'
  end.

(** [copy.copy(l)]: a new list object with the same items. *)
Definition copy_copy (l : loc) (h : heap) : loc * heap :=
  (List.length h, app h [deref h l]).

(** [l.append(x)]: the object at [l] changes in place. *)
Definition append (l : loc) (x : string) (h : heap) : heap :=
  assign l (app (deref h l) [x]) h.

End Store.

(** ** Identity *)

Record Identity := {
  user : string;
  password : string;
  gateway : string;
  flags : Store.loc;
  port : Z
}.

(** The property [Identity.sip].  It returns the address string and the
    store it leaves behind. *)
Definition sip (self : Identity) (h : Store.heap) : string * Store.heap :=
  let '(flags_copy, h1) := Store.copy_copy (flags self) h in
  let h2 := Store.append flags_copy ("auth_pass=" ++ password self) h1 in
  ("sip:" ++ user self ++ "@" ++ gateway self ++ ":"
     ++ Py.str_of_int (port self) ++ ";"
     ++ Py.join ";" (Store.deref h2 flags_copy),
   h2).

(** The property read [n] times in a row: the strings returned, in order,
    and the final store. *)
Fixpoint sip_times (n : nat) (self : Identity) (h : Store.heap)
  : list string * Store.heap :=
  match n with
  | O => ([], h)
  | S k =>
      let '(u, h1) := sip self h in
      let '(us, h2) := sip_times k self h1 in
      (u :: us, h2)
  end.

(** The text [sip] builds from the values of the fields. *)
Definition sip_text (u p g : string) (fl : list string) (pt : Z) : string :=
  "sip:" ++ u ++ "@" ++ g ++ ":" ++ Py.str_of_int pt ++ ";"
    ++ Py.join ";" (app fl ["auth_pass=" ++ p]).

(** ** Call status *)

(** Modelled from the spec: the enumeration [baresipy.constants.CallStatus],
    whose module is not among the sources.  The spec lists its members and
    notes that the source spells the last one [UKNOWN]. *)
Inductive CallStatus :=
  NONE | INCOMING | OUTGOING | RINGING | ESTABLISHED | ON_HOLD
| DISCONNECTED | UKNOWN.

Definition status_eqb (a b : CallStatus) : bool :=
  match a, b with
  | NONE, NONE | INCOMING, INCOMING | OUTGOING, OUTGOING
  | RINGING, RINGING | ESTABLISHED, ESTABLISHED | ON_HOLD, ON_HOLD
  | DISCONNECTED, DISCONNECTED | UKNOWN, UKNOWN => true
  | _, _ => false
  end.

(** [status.name] *)
Definition status_name (c : CallStatus) : string :=
  match c with
  | NONE => "NONE" | INCOMING => "INCOMING" | OUTGOING => "OUTGOING"
  | RINGING => "RINGING" | ESTABLISHED => "ESTABLISHED"
  | ON_HOLD => "ON_HOLD" | DISCONNECTED => "DISCONNECTED"
  | UKNOWN => "UKNOWN"
  end.

(** ** The driver object and what it does to the outside *)

(** The attributes of a [BareSIP] object that the modelled methods read or
    write.  [heap] is the store the identity's flags live in, [tmpdir] the
    value of [tempfile.gettempdir()], and [tts] the [get_mp3] method of
    [self.tts]: the file it returns for a text. *)
Record Session := {
  updated_config : bool;
  _identity : Identity;
  heap : Store.heap;
  tmpdir : string;
  tts : string -> string;
  _prev_output : string;
  running : bool;
  ready : bool;
  mic_muted : bool;
  abort : bool;
  current_call : option string;
  _call_status : CallStatus;
  _previous_call_status : CallStatus;
  _ts : option string
}.

Inductive Level := DEBUG | INFO | WARNING | ERROR.

(** The overridable [handle_*] methods, as the calls a subclass would see. *)
Inductive hook :=
| onReady
| onLoginSuccess
| onLoginFailure
| onIncomingCall (number : string)
| onCallRejected (number : string)
| onCallTimestamp (timestr : string)
| onCallStatusChanged (previous new : CallStatus)
| onCallStarted (error : bool)
| onCallRinging (error : bool)
| onCallEstablished
| onCallEnded (reason : string)
| onMicMuted
| onMicUnmuted
| onAudioStreamFailure
| onDtmfReceived (char : ascii) (duration : Z)
| onError (error : string).

(** The three arguments [sleep] is called with. *)
Inductive Delay :=
| tenth_of_a_second
| half_a_second
| duration_less_half_a_second (wav_file : string).

(** What a method does besides changing the object, in program order. *)
Inductive Effect :=
| sendline (line : string)             (* self.baresip.sendline(line) *)
| logged (level : Level) (msg : string)
| called (h : hook)
| sleep (d : Delay)
| restore_config                       (* the config file is written back *)
| close                                (* self.baresip.close() *)
| kill                                 (* self.baresip.kill(SIGKILL) *)
| dtmf_to_wave (number : Z) (path : string)
| convert_audio (input_file outfile : string).

Inductive exn := IndexError | TypeError | ValueError | UnicodeDecodeError.

Inductive outcome (A : Type) :=
| Return (a : A)
| Raise (e : exn).
Arguments Return {A} a.
Arguments Raise {A} e.

(** A method: from the object before the call to the outcome, the object
    after it and the effects.  An exception keeps the object and the
    effects reached when it was raised. *)
Definition M (A : Type) : Type := Session -> outcome A * Session * list Effect.

Definition ret {A} (a : A) : M A := fun s => (Return a, s, []).

Definition bind {A B} (m : M A) (k : A -> M B) : M B :=
  fun s =>
    match m s with
    | (Return a, s1, t1) =>
        let '(r, s2, t2) := k a s1 in (r, s2, app t1 t2)
    | (Raise e, s1, t1) => (Raise e, s1, t1)
    end.

Notation "x <- m ;; k" := (bind m (fun x => k))
  (at level 61, m at next level, right associativity).
Notation "m ;; k" := (bind m (fun _ => k))
  (at level 61, right associativity).

Definition raise {A} (e : exn) : M A := fun s => (Raise e, s, []).
Definition gets {A} (f : Session -> A) : M A := fun s => (Return (f s), s, []).
Definition modify (f : Session -> Session) : M unit :=
  fun s => (Return tt, f s, []).
Definition emit (e : Effect) : M unit := fun s => (Return tt, s, [e]).
Definition log (level : Level) (msg : string) : M unit :=
  emit (logged level msg).

(** The three components of a run. *)
Definition result {A} (r : outcome A * Session * list Effect) : outcome A :=
  fst (fst r).
Definition state {A} (r : outcome A * Session * list Effect) : Session :=
  snd (fst r).
Definition effects {A} (r : outcome A * Session * list Effect)
  : list Effect := snd r.

(** The lines a run wrote to the program. *)
Fixpoint sent (t : list Effect) : list string :=
  match t with
  | [] => []
  | sendline l :: t' => l :: sent t'
  | _ :: t' => sent t'
  end.

(** The hooks a run called. *)
Fixpoint hooks (t : list Effect) : list hook :=
  match t with
  | [] => []
  | called h :: t' => h :: hooks t'
  | _ :: t' => hooks t'
  end.

(** *** Assignments to attributes *)

Definition set_heap (v : Store.heap) (s : Session) : Session :=
  {| updated_config := updated_config s; _identity := _identity s;
     heap := v; tmpdir := tmpdir s; tts := tts s;
     _prev_output := _prev_output s; running := running s;
     ready := ready s; mic_muted := mic_muted s; abort := abort s;
     current_call := current_call s; _call_status := _call_status s;
     _previous_call_status := _previous_call_status s; _ts := _ts s |}.

Definition set__prev_output (v : string) (s : Session) : Session :=
  {| updated_config := updated_config s; _identity := _identity s;
     heap := heap s; tmpdir := tmpdir s; tts := tts s;
     _prev_output := v; running := running s;
     ready := ready s; mic_muted := mic_muted s; abort := abort s;
     current_call := current_call s; _call_status := _call_status s;
     _previous_call_status := _previous_call_status s; _ts := _ts s |}.

Definition set_running (v : bool) (s : Session) : Session :=
  {| updated_config := updated_config s; _identity := _identity s;
     heap := heap s; tmpdir := tmpdir s; tts := tts s;
     _prev_output := _prev_output s; running := v;
     ready := ready s; mic_muted := mic_muted s; abort := abort s;
     current_call := current_call s; _call_status := _call_status s;
     _previous_call_status := _previous_call_status s; _ts := _ts s |}.

Definition set_ready (v : bool) (s : Session) : Session :=
  {| updated_config := updated_config s; _identity := _identity s;
     heap := heap s; tmpdir := tmpdir s; tts := tts s;
     _prev_output := _prev_output s; running := running s;
     ready := v; mic_muted := mic_muted s; abort := abort s;
     current_call := current_call s; _call_status := _call_status s;
     _previous_call_status := _previous_call_status s; _ts := _ts s |}.

Definition set_mic_muted (v : bool) (s : Session) : Session :=
  {| updated_config := updated_config s; _identity := _identity s;
     heap := heap s; tmpdir := tmpdir s; tts := tts s;
     _prev_output := _prev_output s; running := running s;
     ready := ready s; mic_muted := v; abort := abort s;
     current_call := current_call s; _call_status := _call_status s;
     _previous_call_status := _previous_call_status s; _ts := _ts s |}.

Definition set_abort (v : bool) (s : Session) : Session :=
  {| updated_config := updated_config s; _identity := _identity s;
     heap := heap s; tmpdir := tmpdir s; tts := tts s;
     _prev_output := _prev_output s; running := running s;
     ready := ready s; mic_muted := mic_muted s; abort := v;
     current_call := current_call s; _call_status := _call_status s;
     _previous_call_status := _previous_call_status s; _ts := _ts s |}.

Definition set_current_call (v : option string) (s : Session) : Session :=
  {| updated_config := updated_config s; _identity := _identity s;
     heap := heap s; tmpdir := tmpdir s; tts := tts s;
     _prev_output := _prev_output s; running := running s;
     ready := ready s; mic_muted := mic_muted s; abort := abort s;
     current_call := v; _call_status := _call_status s;
     _previous_call_status := _previous_call_status s; _ts := _ts s |}.

Definition set__call_status (v : CallStatus) (s : Session) : Session :=
  {| updated_config := updated_config s; _identity := _identity s;
     heap := heap s; tmpdir := tmpdir s; tts := tts s;
     _prev_output := _prev_output s; running := running s;
     ready := ready s; mic_muted := mic_muted s; abort := abort s;
     current_call := current_call s; _call_status := v;
     _previous_call_status := _previous_call_status s; _ts := _ts s |}.

Definition set__previous_call_status (v : CallStatus) (s : Session)
  : Session :=
  {| updated_config := updated_config s; _identity := _identity s;
     heap := heap s; tmpdir := tmpdir s; tts := tts s;
     _prev_output := _prev_output s; running := running s;
     ready := ready s; mic_muted := mic_muted s; abort := abort s;
     current_call := current_call s; _call_status := _call_status s;
     _previous_call_status := v; _ts := _ts s |}.

Definition set__ts (v : option string) (s : Session) : Session :=
  {| updated_config := updated_config s; _identity := _identity s;
     heap := heap s; tmpdir := tmpdir s; tts := tts s;
     _prev_output := _prev_output s; running := running s;
     ready := ready s; mic_muted := mic_muted s; abort := abort s;
     current_call := current_call s; _call_status := _call_status s;
     _previous_call_status := _previous_call_status s; _ts := v |}.

(** The object [__init__] leaves behind, before the thread starts. *)
Definition init_session (identity : Identity) (h : Store.heap)
  (updated : bool) (tmp : string) (speech : string -> string) : Session :=
  {| updated_config := updated; _identity := identity; heap := h;
     tmpdir := tmp; tts := speech;
     _prev_output := ""; running := false; ready := false;
     mic_muted := false; abort := false; current_call := None;
     _call_status := NONE; _previous_call_status := NONE; _ts := None |}.

(** [l[i]] *)
Definition subscript (l : list string) (i : nat) : M string :=
  match nth_error l i with
  | Some x => ret x
  | None => raise IndexError
  end.

(** The value of [x] when [if x:] takes the branch: a string that is
    neither [None] nor empty. *)
Definition truthy (x : option string) : option string :=
  match x with
  | Some (String _ _ as v) => Some v
  | _ => None
  end.

Definition option_string_eqb (a b : option string) : bool :=
  match a, b with
  | Some x, Some y => String.eqb x y
  | None, None => true
  | _, _ => false
  end.

Notation "p 'isin' s" := (Py.contains p s) (at level 70, no associativity).

(** ** The methods of [BareSIP] *)

(** *** Properties *)

Definition call_status : M CallStatus := gets _call_status.

Definition call_established : M bool :=
  st <- call_status ;; ret (status_eqb st ESTABLISHED).

(** *** Actions *)

Definition do_command (action : string) : M unit :=
  r <- gets ready ;;
  if r then emit (sendline action)
  else (log WARNING (action ++ " not executed!") ;;
        log ERROR "NOT READY! please wait").

(** [self._identity.sip]: the property is computed in the session's store. *)
Definition identity_sip : M string :=
  fun s =>
    let '(u, h) := sip (_identity s) (heap s) in (Return u, set_heap h s, []).

Definition create_user_agent : M unit :=
  u <- identity_sip ;;
  log INFO ("Adding account to baresip: " ++ u) ;;
  u' <- identity_sip ;;
  emit (sendline ("/uanew " ++ u')).

Definition call (number : string) : M unit :=
  log INFO ("Dialing: " ++ number) ;;
  do_command ("/dial " ++ number).

Definition hang : M unit :=
  cc <- gets current_call ;;
  match truthy cc with
  | Some c =>
      log INFO ("Hanging: " ++ c) ;;
      do_command "/hangup" ;;
      modify (set_current_call None) ;;
      modify (set__call_status NONE)
  | None => log ERROR "No active call to hang"
  end.

Definition hold : M unit :=
  cc <- gets current_call ;;
  match truthy cc with
  | Some c => log INFO ("Holding: " ++ c) ;; do_command "/hold"
  | None => log ERROR "No active call to hold"
  end.

Definition resume : M unit :=
  cc <- gets current_call ;;
  match truthy cc with
  | Some c => log INFO ("Resuming: " ++ c) ;; do_command "/resume"
  | None => log ERROR "No active call to resume"
  end.

Definition mute_mic : M unit :=
  e <- call_established ;;
  if negb e then log ERROR "Cannot mute microphone while not in a call"
  else (m <- gets mic_muted ;;
        if negb m then (log INFO "Muting mic" ;; do_command "/mute")
        else log INFO "Mic already muted").

Definition unmute_mic : M unit :=
  e <- call_established ;;
  if negb e then log ERROR "Cannot unmute microphone while not in a call"
  else (m <- gets mic_muted ;;
        if m then (log INFO "Unmuting mic" ;; do_command "/mute")
        else log INFO "Mic already unmuted").

(** [handle_call_status_change]: the body is [...]. *)
Definition handle_call_status_change (previous new : CallStatus) : M unit :=
  emit (called (onCallStatusChanged previous new)).

Definition _handle_call_status (status : CallStatus) : M unit :=
  cur <- gets _call_status ;;
  modify (set__previous_call_status cur) ;;
  modify (set__call_status status) ;;
  p <- gets _previous_call_status ;;
  n <- gets _call_status ;;
  log DEBUG ("Call status transition, " ++ status_name p ++ " to "
               ++ status_name n) ;;
  handle_call_status_change p n.

Definition accept_call : M unit :=
  do_command "/accept" ;;
  _handle_call_status ESTABLISHED.

Definition list_calls : M unit := do_command "/listcalls".

Definition check_call_status : M CallStatus :=
  do_command "/callstat" ;;
  emit (sleep tenth_of_a_second) ;;
  call_status.

Definition quit : M unit :=
  uc <- gets updated_config ;;
  (if uc then (log INFO "restoring original config" ;; emit restore_config)
   else ret tt) ;;
  log INFO "Exiting" ;;
  r <- gets running ;;
  (if r then
     (cc <- gets current_call ;;
      match truthy cc with
      | Some _ => hang
      | None => ret tt
      end) ;;
     emit (sendline "/quit")
   else ret tt) ;;
  modify (set_running false) ;;
  modify (set_current_call None) ;;
  modify (set__call_status NONE) ;;
  modify (set_abort true) ;;
  emit close ;;
  emit kill.

(** [convert_audio] hands the file to the audio library and returns the
    output file, [pybaresip.wav] in the temporary directory, with its
    duration; [send_audio] sleeps for that duration less half a second. *)
Definition send_audio (wav_file : string) : M unit :=
  e <- call_established ;;
  if negb e then log ERROR "Can't send audio without an active call!"
  else (tmp <- gets tmpdir ;;
        let outfile := Py.path_join tmp "pybaresip.wav" in
        emit (convert_audio wav_file outfile) ;;
        log INFO "transmitting audio" ;;
        do_command ("/ausrc aufile," ++ outfile) ;;
        emit (sleep (duration_less_half_a_second outfile)) ;;
        do_command "/ausrc alsa,default").

(** [int(n)] for a string of one character. *)
Definition int_of_char (n : ascii) : M Z :=
  if Py.isdigit n then ret (Py.digit_value n) else raise ValueError.

(** [d in range(0, 9)] *)
Definition in_range_0_9 (d : Z) : bool := ((0 <=? d) && (d <? 9))%Z.

(** The loop of [send_dtmf] over the characters of [s_number]; [rest] is
    the code after the loop, which a [return] inside the loop skips. *)
Fixpoint send_dtmf_loop (s_number : string) (rest : M unit) : M unit :=
  match s_number with
  | "" => rest
  | String n s' =>
      d <- int_of_char n ;;
      if negb (in_range_0_9 d) then log ERROR "Invalid DTMF tone"
      else send_dtmf_loop s' rest
  end.

Definition send_dtmf (number : Z) : M unit :=
  let s_number := Py.str_of_int number in
  send_dtmf_loop s_number
    (log INFO ("Sending DTMF tones for " ++ s_number) ;;
     tmp <- gets tmpdir ;;
     let dtmf := Py.path_join tmp (s_number ++ ".wav") in
     emit (dtmf_to_wave number dtmf) ;;
     send_audio dtmf).

Definition speak (speech : string) : M unit :=
  e <- call_established ;;
  if negb e then log ERROR "Speaking without an active call!"
  else (log INFO ("Sending TTS for " ++ speech) ;;
        get_mp3 <- gets tts ;;
        send_audio (get_mp3 speech) ;;
        emit (sleep half_a_second)).

(** *** Events *)

Definition handle_incoming_call (number : string) : M unit :=
  emit (called (onIncomingCall number)) ;;
  log INFO ("Incoming call: " ++ number) ;;
  e <- call_established ;;
  if e then (log INFO "already in a call, rejecting" ;;
             emit (sleep tenth_of_a_second) ;;
             do_command "b")
  else (log INFO "default behaviour, rejecting call" ;;
        emit (sleep tenth_of_a_second) ;;
        do_command "b").

Definition handle_call_rejected (number : string) : M unit :=
  emit (called (onCallRejected number)) ;;
  log INFO ("Rejected incoming call: " ++ number).

Definition handle_call_timestamp (timestr : string) : M unit :=
  emit (called (onCallTimestamp timestr)) ;;
  log INFO ("Call time: " ++ timestr).

Definition handle_call_start (error : bool) : M unit :=
  emit (called (onCallStarted error)).

Definition _handle_call_start : M unit :=
  cc <- gets current_call ;;
  match truthy cc with
  | Some c => log INFO ("Calling: " ++ c) ;; handle_call_start false
  | None =>
      log ERROR "In call startup, but self.current_call is None" ;;
      handle_call_start true
  end.

Definition handle_call_ringing (error : bool) : M unit :=
  emit (called (onCallRinging error)).

Definition _handle_call_ringing : M unit :=
  cc <- gets current_call ;;
  match truthy cc with
  | Some c => log INFO ("Ringing: " ++ c) ;; handle_call_ringing false
  | None =>
      log ERROR "In call ringing, but self.current_call is None" ;;
      handle_call_ringing true
  end.

Definition handle_call_established : M unit :=
  emit (called onCallEstablished) ;;
  log INFO "Call established".

Definition handle_call_ended (reason : string) : M unit :=
  emit (called (onCallEnded reason)) ;;
  log INFO "Call ended" ;;
  log DEBUG ("Reason: " ++ reason).

Definition _handle_no_accounts : M unit :=
  log DEBUG "No accounts in baresip, creating one" ;;
  create_user_agent.

Definition handle_login_success : M unit :=
  emit (called onLoginSuccess) ;;
  log INFO "Logged in!".

Definition handle_login_failure : M unit :=
  emit (called onLoginFailure) ;;
  log ERROR "Log in failed!" ;;
  quit.

Definition handle_ready : M unit :=
  emit (called onReady) ;;
  log INFO "Ready for instructions" ;;
  modify (set_ready true).

Definition handle_mic_muted : M unit :=
  emit (called onMicMuted) ;;
  log INFO "Microphone muted".

Definition handle_mic_unmuted : M unit :=
  emit (called onMicUnmuted) ;;
  log INFO "Microphone unmuted".

Definition handle_audio_stream_failure : M unit :=
  emit (called onAudioStreamFailure) ;;
  log DEBUG "Aborting call, maybe we reached voicemail?" ;;
  hang.

Definition handle_dtmf_received (char : ascii) (duration : Z) : M unit :=
  emit (called (onDtmfReceived char duration)) ;;
  log INFO ("Received DTMF symbol '" ++ String char "" ++ "' duration="
              ++ Py.str_of_int duration).

Definition handle_error (error : string) : M unit :=
  emit (called (onError error)) ;;
  log ERROR error ;;
  if String.eqb error "failed to set audio-source (No such device)"
  then handle_audio_stream_failure
  else ret tt.

(** *** The event loop *)

(** The branch of [run] for a line read after the header of the list of
    active calls. *)
Definition active_call_line (out : string) : M unit :=
  if "ESTABLISHED" isin out then
    cc <- gets current_call ;;
    match cc with
    | None => raise TypeError            (* [None in out] *)
    | Some c =>
        if c isin out then
          a <- subscript (Py.split out "ESTABLISHED") 0 ;;
          b <- subscript (Py.split a "[line 1]") 1 ;;
          let ts := Py.strip b in
          old <- gets _ts ;;
          if negb (option_string_eqb (Some ts) old)
          then (modify (set__ts (Some ts)) ;; handle_call_timestamp ts)
          else ret tt
        else ret tt
    end
  else ret tt.

(** The chain of [if] and [elif] in [run], on the stripped line. *)
Definition dispatch (out : string) : M unit :=
  fun s =>
  if "baresip is ready." isin out then handle_ready s
  else if "account: No SIP accounts found" isin out then
    _handle_no_accounts s
  else if "All 1 useragent registered successfully!" isin out then
    (modify (set_ready true) ;; handle_login_success) s
  else if ("ua: SIP register failed:" isin out)
          || ("401 Unauthorized" isin out)
          || ("Register: Destination address required" isin out)
          || ("Register: Connection timed out" isin out) then
    (handle_error out ;; handle_login_failure) s
  else if "Incoming call from: " isin out then
    (a <- subscript (Py.split out "Incoming call from: ") 1 ;;
     b <- subscript (Py.split a " - (press 'a' to accept)") 0 ;;
     let num := Py.strip b in
     modify (set_current_call (Some num)) ;;
     _handle_call_status INCOMING ;;
     handle_incoming_call num) s
  else if "call: rejecting incoming call from " isin out then
    (a <- subscript (Py.split out "rejecting incoming call from ") 1 ;;
     b <- subscript (Py.split a " ") 0 ;;
     let num := Py.strip b in
     handle_call_rejected num) s
  else if "call: SIP Progress: 180 Ringing" isin out then
    (_handle_call_ringing ;; _handle_call_status RINGING) s
  else if "call: connecting to " isin out then
    (a <- subscript (Py.split out "call: connecting to '") 1 ;;
     n <- subscript (Py.split a "'") 0 ;;
     modify (set_current_call (Some n)) ;;
     _handle_call_start ;;
     _handle_call_status OUTGOING) s
  else if "Call established:" isin out then
    (_handle_call_status ESTABLISHED ;;
     emit (sleep half_a_second) ;;
     handle_call_established) s
  else if "call: hold " isin out then
    (n <- subscript (Py.split out "call: hold ") 1 ;;
     _handle_call_status ON_HOLD) s
  else if ("Call with " isin out) && ("terminated (duration: " isin out) then
    (a <- subscript (Py.split out "terminated (duration: ") 1 ;;
     let duration := Py.drop_last a in
     _handle_call_status DISCONNECTED ;;
     handle_call_timestamp duration ;;
     modify (set_mic_muted false)) s
  else if "call muted" isin out then
    (modify (set_mic_muted true) ;; handle_mic_muted) s
  else if "call un-muted" isin out then
    (modify (set_mic_muted false) ;; handle_mic_unmuted) s
  else if "session closed:" isin out then
    (a <- subscript (Py.split out "session closed:") 1 ;;
     let reason := Py.strip a in
     _handle_call_status DISCONNECTED ;;
     handle_call_ended reason ;;
     modify (set_mic_muted false)) s
  else if "(no active calls)" isin out then
    _handle_call_status DISCONNECTED s
  else if "===== Call debug " isin out then
    (a <- subscript (Py.split out "(") 1 ;;
     status <- subscript (Py.split a ")") 0 ;;
     log WARNING ("baresip produced status '" ++ status
                    ++ "', mapping to CallStatus.UNKNOWN") ;;
     _handle_call_status UKNOWN) s
  else if "--- List of active calls (1): ---" isin _prev_output s then
    active_call_line out s
  else if "failed to set audio-source (No such device)" isin out then
    handle_error "failed to set audio-source (No such device)" s
  else if ("terminated by signal" isin out) || ("ua: stop all" isin out) then
    modify (set_running false) s
  else if "received DTMF:" isin out then
    match Py.dtmf_search out with
    | Some (c, d) => handle_dtmf_received c (Py.int_of_digits d) s
    | None => ret tt s
    end
  else ret tt s.

(** The statements of [run] under [try], for the decoded line [raw]. *)
Definition loop_body (raw : string) : M unit :=
  prev <- gets _prev_output ;;
  if negb (String.eqb raw prev) then
    (let out := Py.strip raw in
     log DEBUG ("baresip> " ++ out) ;;
     dispatch out ;;
     modify (set__prev_output out))
  else ret tt.

(** What [self.baresip.readline().decode("utf-8")] can do: give the text
    [raw] of the bytes read, raise one of the three exceptions [run]
    catches, or raise [UnicodeDecodeError] on bytes that are not UTF-8,
    which [run] does not catch.  [EOF] is the exception reaching the
    handler; pexpect's own [readline] reports the end of the stream by
    returning the empty byte string, which is the read [Line ""]. *)
Inductive read :=
| Line (raw : string)
| EOF
| TIMEOUT
| KeyboardInterrupt
| Undecodable.

(** One turn of the [while] loop of [run], from the read to the end of the
    [try] statement. *)
Definition iteration (r : read) : M unit :=
  match r with
  | Line raw => loop_body raw
  | EOF => modify (set_running false)
  | TIMEOUT => ret tt
  | KeyboardInterrupt => modify (set_running false)
  | Undecodable => raise UnicodeDecodeError
  end.

(** [run] on the reads the program delivers.  When the list is used up
    and [running] still holds, the thread is waiting in [readline]. *)
Fixpoint run_loop (reads : list read) : M unit :=
  r <- gets running ;;
  if r then
    match reads with
    | [] => ret tt
    | x :: reads' => iteration x ;; run_loop reads'
    end
  else quit.

Definition run (reads : list read) : M unit :=
  modify (set_running true) ;;
  run_loop reads.

(** A small identity and session for the examples. *)
Definition alice : Identity :=
  {| user := "alice"; password := "pw"; gateway := "example.org";
     flags := 0; port := 5060 |}.

Definition session0 : Session :=
  init_session alice [["regint=0"]] false "/tmp" (fun _ => "/tmp/tts.mp3").

(** ** A session: the reader thread and its callers

    The public methods an application calls on the driver. *)
Inductive facade_op :=
| op_do_command (action : string)
| op_create_user_agent
| op_call (number : string)
| op_hang
| op_hold
| op_resume
| op_mute_mic
| op_unmute_mic
| op_accept_call
| op_list_calls
| op_check_call_status
| op_quit
| op_send_dtmf (number : Z)
| op_speak (speech : string)
| op_send_audio (wav_file : string).

Definition facade (op : facade_op) : M unit :=
  match op with
  | op_do_command action => do_command action
  | op_create_user_agent => create_user_agent
  | op_call number => call number
  | op_hang => hang
  | op_hold => hold
  | op_resume => resume
  | op_mute_mic => mute_mic
  | op_unmute_mic => unmute_mic
  | op_accept_call => accept_call
  | op_list_calls => list_calls
  | op_check_call_status => _ <- check_call_status ;; ret tt
  | op_quit => quit
  | op_send_dtmf number => send_dtmf number
  | op_speak speech => speak speech
  | op_send_audio wav_file => send_audio wav_file
  end.

(** The reader thread is waiting in [readline] inside the loop, has left
    [run] after its closing [quit], or has died of an exception that [run]
    does not catch. *)
Inductive thread_state :=
| waiting
| finished
| died (e : exn).

Record World := {
  object : Session;
  thread : thread_state;
  trace : list Effect
}.

(** What happens next in a session: the program delivers a read to the
    waiting thread, or a caller invokes a method.  Each is taken as one
    step: a method call does not overlap a turn of the loop. *)
Inductive event :=
| delivers (r : read)
| invokes (op : facade_op).

(** A read wakes the thread, which runs one turn of the loop and tests
    [self.running] again; when it is false the thread leaves the loop and
    calls [quit].  An exception raised by a method goes to its caller and
    leaves the object as it then was. *)
Definition step (w : World) (e : event) : World :=
  match e with
  | invokes op =>
      let '(_, s, t) := facade op (object w) in
      {| object := s; thread := thread w; trace := app (trace w) t |}
  | delivers r =>
      match thread w with
      | waiting =>
          match iteration r (object w) with
          | (Return _, s, t) =>
              if running s
              then {| object := s; thread := waiting;
                      trace := app (trace w) t |}
              else let '(_, s', t') := quit s in
                   {| object := s'; thread := finished;
                      trace := app (trace w) (app t t') |}
          | (Raise e, s, t) =>
              {| object := s; thread := died e; trace := app (trace w) t |}
          end
      | _ => w
      end
  end.

Definition exec (w : World) (evs : list event) : World :=
  fold_left step evs w.

(** The session when [run] has set [running] and entered the loop. *)
Definition started (s : Session) : World :=
  {| object := set_running true s; thread := waiting; trace := [] |}.

(** ** Digits of a DTMF number *)

(** The character is one of the digits 0 to 8. *)
Definition digit_0_8 (c : ascii) : bool :=
  let n := nat_of_ascii c in ((48 <=? n) && (n <=? 56))%nat.

(** Every character of the decimal representation is a digit 0 to 8. *)
Definition all_digits_0_8 (number : Z) : bool :=
  forallb digit_0_8 (list_ascii_of_string (Py.str_of_int number)).

(** Some character of the decimal representation is the digit 9. *)
Definition has_digit_9 (number : Z) : bool :=
  existsb (Ascii.eqb "9") (list_ascii_of_string (Py.str_of_int number)).

(** ** Occurrences of a text in the address string *)

(** The character [c] occurs in [s]. *)
Fixpoint has_char (c : ascii) (s : string) : bool :=
  match s with
  | "" => false
  | String b s' => Ascii.eqb c b || has_char c s'
  end.

(** The text that introduces the password in the address. *)
Definition auth_pass : string := "auth_pass=".

(** ** The tracked call and the status *)






(** ** Local playback *)

(** [l[index] = x] on a list of strings; the index is within the list
    wherever the source assigns. *)
Fixpoint assign_item (index : nat) (x : string) (l : list string)
  : list string :=
  match l, index with
  | [], _ => []
  | _ :: l', O => x :: l'
  | y :: l', S k => y :: assign_item k x l'
  end.

(** The loop of [_play_wav]: [enumerate] walks the list object
    [play_mp3_cmd] by index while the body assigns into that same object.
    [steps] bounds the turns; the list keeps its length, so its length is
    enough. *)
Fixpoint _play_wav_loop (steps index : nat) (wav_file : string)
  (play_mp3_cmd : list string) : list string :=
  match steps with
  | O => play_mp3_cmd
  | S k =>
      match nth_error play_mp3_cmd index with
      | None => play_mp3_cmd
      | Some cmd =>
          _play_wav_loop k (S index) wav_file
            (if String.eqb cmd "%1"
             then assign_item index wav_file play_mp3_cmd
             else play_mp3_cmd)
      end
  end.

(** What [_play_wav] returns: the return code of [subprocess.call], or the
    process object of [subprocess.Popen], here the command it runs. *)
Inductive audio_handle :=
| returncode (code : Z)
| process (argv : list string).

(** [_play_wav]; [call] is the return code the command ends with. *)
Definition _play_wav (call : list string -> Z) (wav_file play_cmd : string)
  (blocking : bool) : audio_handle :=
  let play_mp3_cmd := Py.split play_cmd " " in
  let play_mp3_cmd :=
    _play_wav_loop (List.length play_mp3_cmd) 0 wav_file play_mp3_cmd in
  if blocking then returncode (call play_mp3_cmd) else process play_mp3_cmd.

(** [s.endswith(suffix)] *)
Fixpoint endswith (suffix s : string) : bool :=
  String.eqb s suffix
  || match s with
     | "" => false
     | String _ s' => endswith suffix s'
     end.

(** [play]: the file converted, if any, and the new value of
    [self.audio]. *)
Definition play (call : list string -> Z) (tmp audio_file : string)
  (blocking : bool) : option string * audio_handle :=
  if negb (endswith ".wav" audio_file)
  then (Some audio_file,
        _play_wav call (Py.path_join tmp "pybaresip.wav") "aplay %1" blocking)
  else (None, _play_wav call audio_file "aplay %1" blocking).

(** [stop_playing] on the value of [self.audio]: nothing to do, the
    process killed, or the [AttributeError] of calling [kill] on an
    integer. *)
Inductive stopped := nothing_played | process_killed | AttributeError.

Definition stop_playing (audio : option audio_handle) : stopped :=
  match audio with
  | None => nothing_played
  | Some (process _) => process_killed
  | Some (returncode _) => AttributeError
  end.

(** ** The configuration file *)

Module Config.

(** [s.replace(old, new)] for a non-empty [old]: the pieces between the
    occurrences of [old], joined by [new]. *)
Definition replace (s old new : string) : string :=
  Py.join new (Py.split s old).

Definition TAB : string := String (ascii_of_nat 9) "".

(** The line of the stock configuration that [__init__] rewrites. *)
Definition stock_audio_path : string :=
  "#audio_path" ++ TAB ++ TAB ++ "/usr/share/baresip".

(** The two files in the configuration directory: their text, when they
    exist. *)
Record files := {
  config_file : option string;
  config_bak : option string
}.

(** The argument [sounds_path]: [None], [False], or a path together with
    what [isdir] says about it. *)
Inductive sounds :=
| sounds_none
| sounds_false
| sounds_at (path : string) (isdir : bool).

(** The attributes [__init__] sets from the configuration. *)
Record t := {
  config : string;
  _original_config : string;
  updated_config : bool
}.

(** The configuration part of [__init__].  [DEFAULT] is
    [baresipy.config.DEFAULT], whose module is not among the sources. *)
Definition init (DEFAULT : string) (sounds_path : sounds) (fs : files)
  : t * files :=
  let '(config0, updated0) :=
    match config_file fs with
    | Some text => (text, false)
    | None => (DEFAULT, true)
    end in
  let original := config0 in
  let '(config1, updated1) :=
    match sounds_path with
    | sounds_none => (config0, updated0)
    | _ =>
        if "#audio_path" isin config0 then
          (match sounds_path with
           | sounds_false =>
               replace config0 stock_audio_path
                 ("audio_path" ++ TAB ++ TAB ++ "/dont/load")
           | sounds_at path true =>
               replace config0 stock_audio_path
                 ("audio_path" ++ TAB ++ TAB ++ path)
           | _ => config0
           end, true)
        else (config0, updated0)
    end in
  ({| config := config1; _original_config := original;
      updated_config := updated1 |},
   if updated1
   then {| config_file := Some config1; config_bak := Some original |}
   else fs).

(** The configuration part of [quit]. *)
Definition quit (c : t) (fs : files) : files :=
  if updated_config c
  then {| config_file := Some (_original_config c);
          config_bak := config_bak fs |}
  else fs.

End Config.

(** ** Predicates used in the statements *)

(** A line written while the session is not ready: the account creation
    or the exit command, the two that bypass [do_command]. *)
Definition ungated (line : string) : Prop :=
  line = "/quit" \/ Py.startswith "/uanew " line = true.

(** The three ways a line can make [run] raise: a connecting line without
    the opening quote, a call-debug line without a parenthesis, and, after
    the header of the list of active calls, a line that mentions
    ESTABLISHED while no call is tracked or whose text before ESTABLISHED
    lacks [[line 1]]. *)
Definition crash_condition (out : string) (s : Session) (e : exn) : Prop :=
  (e = IndexError
   /\ ("call: connecting to " isin out) = true
   /\ ("call: connecting to '" isin out) = false)
  \/ (e = IndexError
      /\ ("===== Call debug " isin out) = true
      /\ ("(" isin out) = false)
  \/ (("--- List of active calls (1): ---" isin _prev_output s) = true
      /\ ("ESTABLISHED" isin out) = true
      /\ ((e = TypeError /\ current_call s = None)
          \/ (e = IndexError
              /\ exists a, nth_error (Py.split out "ESTABLISHED") 0 = Some a
                           /\ ("[line 1]" isin a) = false))).

(** A character of a telephone number: a digit or the plus sign. *)
Definition phone_char (c : ascii) : bool := Py.isdigit c || Ascii.eqb c "+".

Definition phone_number (num : string) : bool :=
  forallb phone_char (list_ascii_of_string num).

(** Every character of [a] is in the class [cls]. *)
Definition all_in (cls : ascii -> bool) (a : string) : bool :=
  forallb cls (list_ascii_of_string a).

(** * Properties *)

(** ** The string operations and the loop on examples *)

Example split_twice :
  Py.split "a, b,, c" ", " = ["a"; "b,"; "c"].
Proof. reflexivity. Qed.

Example split_tail : Py.split "abc" "bc" = ["a"; ""].
Proof. reflexivity. Qed.

Example strip_line :
  Py.strip ("  call muted " ++ Py.CRLF) = "call muted".
Proof. reflexivity. Qed.

Example dtmf_search_ok :
  Py.dtmf_search "x received DTMF: '5' (duration=120) y" = Some ("5"%char, "120").
Proof. reflexivity. Qed.

Example path_join_tmp : Py.path_join "/tmp" "123.wav" = "/tmp/123.wav".
Proof. reflexivity. Qed.

Example sip_example :
  fst (sip {| user := "alice"; password := "pw"; gateway := "example.org";
              flags := 0; port := 5060 |} [["regint=0"]])
  = "sip:alice@example.org:5060;regint=0;auth_pass=pw".
Proof. reflexivity. Qed.

Example run_incoming :
  let r := run [Line ("baresip is ready." ++ Py.CRLF);
                Line ("Incoming call from: 5551234 - (press 'a' to accept)"
                        ++ Py.CRLF)] session0 in
  current_call (state r) = Some "5551234"
  /\ _call_status (state r) = INCOMING
  /\ hooks (effects r)
     = [onReady; onCallStatusChanged NONE INCOMING; onIncomingCall "5551234"]
  /\ sent (effects r) = ["b"].
Proof. vm_compute. repeat split. Qed.

(** ** Evaluating a method on a symbolic session *)

Ltac unfold_methods :=
  unfold run, run_loop, iteration, loop_body, dispatch, active_call_line,
    handle_error, handle_dtmf_received, handle_audio_stream_failure,
    handle_mic_unmuted, handle_mic_muted, handle_ready,
    handle_login_failure, handle_login_success, _handle_no_accounts,
    handle_call_ended, handle_call_established, _handle_call_ringing,
    handle_call_ringing, _handle_call_start, handle_call_start,
    handle_call_timestamp, handle_call_rejected, handle_incoming_call,
    speak, send_dtmf, send_audio, quit, check_call_status, list_calls,
    accept_call, _handle_call_status, handle_call_status_change,
    unmute_mic, mute_mic, resume, hold, hang, call, create_user_agent,
    do_command, identity_sip, call_established, call_status, subscript,
    int_of_char,
    log, emit, modify, gets, raise, bind, ret.

(** Replaces [Py.strip] of a literal line by its value. *)
Ltac strip_literal :=
  repeat match goal with
    | |- context [Py.strip ?x] =>
        let v := eval vm_compute in (Py.strip x) in
        change (Py.strip x) with v
    end.

Ltac crunch_step :=
  match goal with
  | H : ?t = true |- context [?t] => rewrite H
  | H : ?t = false |- context [?t] => rewrite H
  | H : ?t = Some _ |- context [?t] => rewrite H
  | H : ?t = None |- context [?t] => rewrite H
  | |- context [if ?b then _ else _] =>
      match type of b with bool => destruct b eqn:? end
  | |- context [match truthy ?x with _ => _ end] =>
      destruct (truthy x) eqn:?
  | |- context [match nth_error ?l ?i with _ => _ end] =>
      destruct (nth_error l i) eqn:?
  | |- context [match current_call ?x with _ => _ end] =>
      destruct (current_call x) eqn:?
  | |- context [match Py.dtmf_search ?o with _ => _ end] =>
      destruct (Py.dtmf_search o) as [[? ?] |] eqn:?
  | |- context [sip ?i ?h] => destruct (sip i h) as [? ?] eqn:?
  end.

Ltac mcbn :=
  cbn -[Py.contains Py.split Py.strip Py.drop_last Py.dtmf_search
        Py.int_of_digits Py.str_of_int Py.path_join String.append
        String.eqb sip nth_error truthy].

(** Evaluates a method on a symbolic session, with a case for every test
    the evaluation meets. *)
Ltac crunch := mcbn; repeat (crunch_step; mcbn).

Lemma eqb_of_neq (a b : string) : a <> b -> String.eqb a b = false.
Proof. intros H. apply String.eqb_neq. exact H. Qed.

(** ** The gated command path *)

(** C4.  A command issued through [do_command] while [ready] is false
    writes no line to the program: it returns normally, leaves the session
    as it was, and its only effects are the warning that the command was
    not executed and the error record that follows it. *)
Theorem do_command_not_ready (action : string) (s : Session) :
  ready s = false ->
  let r := do_command action s in
  result r = Return tt
  /\ state r = s
  /\ sent (effects r) = []
  /\ effects r = [logged WARNING (action ++ " not executed!");
                  logged ERROR "NOT READY! please wait"].
Proof.
  intros H r. subst r. unfold do_command, bind, gets. rewrite H.
  repeat split.
Qed.

Lemma do_command_not_ready_witness :
  ready session0 = false
  /\ let r := do_command "/dial 5551234" session0 in
     result r = Return tt
     /\ state r = session0
     /\ sent (effects r) = []
     /\ effects r = [logged WARNING ("/dial 5551234" ++ " not executed!");
                     logged ERROR "NOT READY! please wait"].
Proof.
  split; [reflexivity | apply (do_command_not_ready "/dial 5551234" session0)].
  reflexivity.
Defined.

(** When [ready] holds the line is written and nothing else happens. *)
Lemma do_command_ready (action : string) (s : Session) :
  ready s = true ->
  do_command action s = (Return tt, s, [sendline action]).
Proof.
  intros H. unfold do_command, bind, gets. rewrite H. reflexivity.
Qed.

(** [do_command] never changes the session and never raises. *)
Lemma do_command_state (action : string) (s : Session) :
  state (do_command action s) = s /\ result (do_command action s) = Return tt.
Proof.
  unfold do_command, bind, gets. destruct (ready s); split; reflexivity.
Qed.

(** ** The default handler of incoming calls *)

(** C10, as the code has it.  The default [handle_incoming_call] leaves the
    session as it was and calls no other hook, whether or not a call is
    established; both branches issue the one command [b] through
    [do_command], so the line [b] is written when [ready] holds and nothing
    is written otherwise; [/accept] is never written. *)
Theorem handle_incoming_call_rejects (number : string) (s : Session) :
  let r := handle_incoming_call number s in
  result r = Return tt
  /\ state r = s
  /\ hooks (effects r) = [onIncomingCall number]
  /\ sent (effects r) = (if ready s then ["b"] else [])
  /\ ~ In "/accept" (sent (effects r)).
Proof.
  unfold_methods. cbn.
  destruct (status_eqb (_call_status s) ESTABLISHED), (ready s); cbn;
    repeat split; try reflexivity; intros H;
    repeat (destruct H as [H | H]; [discriminate H |]); exact H.
Qed.

(** C10, as stated, fails before the session is ready: the handler writes
    nothing to the program. *)
Lemma handle_incoming_call_not_ready_counterexample :
  ready session0 = false
  /\ sent (effects (handle_incoming_call "5551234" session0)) = []
  /\ ~ In "b" (sent (effects (handle_incoming_call "5551234" session0))).
Proof.
  repeat split. intros H. exact H.
Qed.

(** ** A call that is established and then terminated *)

(** C8.  The line [Call established:] sets the status to ESTABLISHED and
    calls the status-change hook and then the call-established hook.  When
    the line [Call with bob terminated (duration: 00:01:23)] is read later,
    the status still being ESTABLISHED, the status becomes DISCONNECTED with
    ESTABLISHED as the previous one, the status-change hook is called and
    then the timestamp hook with [00:01:23], which is the text after the
    marker [terminated (duration: ] with its last character removed, and
    [mic_muted] is false afterwards. *)
Theorem established_then_terminated (s s' : Session) :
  _prev_output s <> "Call established:" ->
  _prev_output s' <> "Call with bob terminated (duration: 00:01:23)" ->
  _call_status s' = ESTABLISHED ->
  let r := loop_body "Call established:" s in
  let r' := loop_body "Call with bob terminated (duration: 00:01:23)" s' in
  (result r = Return tt
   /\ _call_status (state r) = ESTABLISHED
   /\ hooks (effects r)
      = [onCallStatusChanged (_call_status s) ESTABLISHED; onCallEstablished])
  /\ (result r' = Return tt
      /\ _previous_call_status (state r') = ESTABLISHED
      /\ _call_status (state r') = DISCONNECTED
      /\ hooks (effects r')
         = [onCallStatusChanged ESTABLISHED DISCONNECTED;
            onCallTimestamp "00:01:23"]
      /\ mic_muted (state r') = false)
  /\ (nth_error (Py.split "Call with bob terminated (duration: 00:01:23)"
                          "terminated (duration: ") 1 = Some "00:01:23)"
      /\ Py.drop_last "00:01:23)" = "00:01:23").
Proof.
  intros Hp Hp' Hs r r'. subst r r'.
  unfold loop_body, bind, gets.
  rewrite (eqb_of_neq _ _ (not_eq_sym Hp)).
  rewrite (eqb_of_neq _ _ (not_eq_sym Hp')).
  strip_literal. cbn. rewrite Hs.
  repeat split.
Qed.

Lemma established_then_terminated_witness :
  let s := set_running true session0 in
  let s' := state (loop_body "Call established:" s) in
  let r := loop_body "Call established:" s in
  let r' := loop_body "Call with bob terminated (duration: 00:01:23)" s' in
  (result r = Return tt
   /\ _call_status (state r) = ESTABLISHED
   /\ hooks (effects r)
      = [onCallStatusChanged (_call_status s) ESTABLISHED; onCallEstablished])
  /\ (result r' = Return tt
      /\ _previous_call_status (state r') = ESTABLISHED
      /\ _call_status (state r') = DISCONNECTED
      /\ hooks (effects r')
         = [onCallStatusChanged ESTABLISHED DISCONNECTED;
            onCallTimestamp "00:01:23"]
      /\ mic_muted (state r') = false)
  /\ (nth_error (Py.split "Call with bob terminated (duration: 00:01:23)"
                          "terminated (duration: ") 1 = Some "00:01:23)"
      /\ Py.drop_last "00:01:23)" = "00:01:23").
Proof.
  apply (established_then_terminated
           (set_running true session0)
           (state (loop_body "Call established:" (set_running true session0)))).
  - vm_compute. discriminate.
  - vm_compute. discriminate.
  - vm_compute. reflexivity.
Defined.

(** The two lines read by [run] one after the other, from the start. *)
Example established_then_terminated_run :
  let r := run [Line "Call established:";
                Line "Call with bob terminated (duration: 00:01:23)"]
               session0 in
  hooks (effects r)
  = [onCallStatusChanged NONE ESTABLISHED; onCallEstablished;
     onCallStatusChanged ESTABLISHED DISCONNECTED;
     onCallTimestamp "00:01:23"]
  /\ _call_status (state r) = DISCONNECTED
  /\ mic_muted (state r) = false.
Proof. vm_compute. repeat split. Qed.

(** ** Repeated lines *)

(** The test [out != self._prev_output] compares the line as read with the
    stripped line stored by the turn before.  A line that strips to itself
    is therefore skipped when it comes twice in a row. *)
Lemma loop_body_repeat_stripped (raw : string) (s : Session) :
  Py.strip raw = raw ->
  result (loop_body raw s) = Return tt ->
  loop_body raw (state (loop_body raw s))
  = (Return tt, state (loop_body raw s), []).
Proof.
  intros Hstrip. unfold loop_body, bind, gets.
  destruct (String.eqb raw (_prev_output s)) eqn:E; cbn.
  - intros _. rewrite E. reflexivity.
  - rewrite Hstrip.
    destruct (dispatch raw s) as [[o s1] t1]. destruct o; cbn.
    + intros _. rewrite String.eqb_refl. reflexivity.
    + discriminate.
Qed.

(** C2, on the lines a pseudo-terminal delivers.  Every such line ends in
    carriage return and line feed, so it never equals the stripped line
    kept from the turn before: of two identical lines [Call established:]
    the second is dispatched again.  It calls both hooks a second time and
    changes the previous status from NONE to ESTABLISHED. *)
Theorem repeated_line_dispatched_twice :
  let raw := "Call established:" ++ Py.CRLF in
  let r1 := run [Line raw] session0 in
  let r2 := run [Line raw; Line raw] session0 in
  hooks (effects r1)
  = [onCallStatusChanged NONE ESTABLISHED; onCallEstablished]
  /\ hooks (effects r2)
     = [onCallStatusChanged NONE ESTABLISHED; onCallEstablished;
        onCallStatusChanged ESTABLISHED ESTABLISHED; onCallEstablished]
  /\ _previous_call_status (state r1) = NONE
  /\ _previous_call_status (state r2) = ESTABLISHED.
Proof. vm_compute. repeat split. Qed.

(** ** Lines on which a turn of the loop raises *)

(** C3, on a connecting line without a quoted callee and on a call-debug
    line without parentheses.  The guard of the branch holds, the
    subscript [1] of the split does not exist, and the [IndexError] is not
    among the exceptions [run] catches: the call of [run] ends with it and
    the reader thread dies. *)
Theorem unquoted_lines_raise :
  let connecting := "call: connecting to bob" ++ Py.CRLF in
  let debug := "===== Call debug =====" ++ Py.CRLF in
  result (run [Line connecting] session0) = Raise IndexError
  /\ thread (exec (started session0) [delivers (Line connecting)])
     = died IndexError
  /\ result (run [Line debug] session0) = Raise IndexError
  /\ thread (exec (started session0) [delivers (Line debug)])
     = died IndexError.
Proof. vm_compute. repeat split. Qed.

(** After the header of the list of active calls, a line that mentions
    ESTABLISHED raises [TypeError] when no call is tracked. *)
Example active_call_line_without_call :
  result (run [Line ("--- List of active calls (1): ---" ++ Py.CRLF);
               Line ("[line 1] 0:00:05 ESTABLISHED sip:bob@example.org"
                       ++ Py.CRLF)] session0)
  = Raise TypeError.
Proof. vm_compute. reflexivity. Qed.

(** ** The store *)

Section StoreFacts.

Import Store.

Lemma deref_app_old (h : heap) (x : list string) (l : loc) :
  l < List.length h -> deref (app h [x]) l = deref h l.
Proof. intros H. unfold deref. apply app_nth1. exact H. Qed.

Lemma deref_app_new (h : heap) (x : list string) :
  deref (app h [x]) (List.length h) = x.
Proof. unfold deref. apply nth_middle. Qed.

Lemma assign_app_new (h : heap) (x v : list string) :
  assign (List.length h) v (app h [x]) = app h [v].
Proof.
  induction h as [| y h IH]; cbn.
  - reflexivity.
  - rewrite IH. reflexivity.
Qed.

(** [copy.copy] followed by [append] on the copy leaves every list object
    that existed before as it was. *)
Lemma append_to_copy (h : heap) (l : loc) (x : string) :
  let '(c, h1) := copy_copy l h in
  append c x h1 = app h [app (deref h l) [x]].
Proof.
  unfold copy_copy, append. rewrite deref_app_new. apply assign_app_new.
Qed.

End StoreFacts.

(** ** The address string of an identity *)

Section IdentityFacts.

Import Store.

(** [sip] returns the text built from the fields and adds one list
    object, the extended copy, at the end of the store. *)
Lemma sip_eq (self : Identity) (h : heap) :
  sip self h
  = (sip_text (user self) (password self) (gateway self)
              (deref h (flags self)) (port self),
     app h [app (deref h (flags self)) ["auth_pass=" ++ password self]]).
Proof.
  unfold sip, sip_text.
  pose proof (append_to_copy h (flags self) ("auth_pass=" ++ password self))
    as H.
  unfold copy_copy in *. rewrite H. rewrite deref_app_new. reflexivity.
Qed.

Lemma sip_keeps_lists (self : Identity) (h : heap) (l : loc) :
  l < List.length h -> deref (snd (sip self h)) l = deref h l.
Proof. intros H. rewrite sip_eq. cbn. apply deref_app_old. exact H. Qed.

Lemma sip_grows (self : Identity) (h : heap) :
  List.length (snd (sip self h)) = S (List.length h).
Proof. rewrite sip_eq. cbn. rewrite length_app. cbn. lia. Qed.

Lemma sip_times_spec (n : nat) (self : Identity) (h : heap) :
  flags self < List.length h ->
  fst (sip_times n self h)
  = repeat (sip_text (user self) (password self) (gateway self)
                     (deref h (flags self)) (port self)) n
  /\ (forall l, l < List.length h ->
                deref (snd (sip_times n self h)) l = deref h l).
Proof.
  revert h. induction n as [| n IH]; intros h Hl.
  - split; [reflexivity | intros; reflexivity].
  - pose proof (sip_keeps_lists self h) as Hk.
    pose proof (sip_grows self h) as Hg.
    cbn [sip_times]. destruct (sip self h) as [u h1] eqn:E.
    rewrite sip_eq in E. injection E as Eu Eh.
    cbn [fst snd] in Hk, Hg.
    assert (Hl1 : flags self < List.length h1) by lia.
    destruct (IH h1 Hl1) as [Hf Hs].
    destruct (sip_times n self h1) as [us h2]. cbn [fst snd] in *.
    split.
    + rewrite Hf, (Hk _ Hl), <- Eu. reflexivity.
    + intros l Hlt. rewrite Hs by lia. apply Hk. exact Hlt.
Qed.

End IdentityFacts.

(** ** Counting a text in a string *)

Section Counting.

Variable a : ascii.
Variable p' : string.
Let p := String a p'.

Lemma count_sub_zero_contains (q s : string) :
  Py.count_sub q s = 0 <-> Py.contains q s = false.
Proof.
  induction s as [| b s IH]; cbn.
  - destruct (Py.startswith q ""); cbn; split; intros H;
      try reflexivity; discriminate H.
  - destruct (Py.startswith q (String b s)); cbn.
    + split; intros H; discriminate H.
    + exact IH.
Qed.

(** A text that does not hold the separator [c] cannot start before it and
    end after it. *)
Lemma startswith_app_sep (q : string) (c : ascii) (s1 s2 : string) :
  has_char c q = false ->
  Py.startswith q (s1 ++ String c s2) = Py.startswith q s1.
Proof.
  revert s1. induction q as [| b q IH]; intros s1 Hc.
  - destruct s1; reflexivity.
  - cbn in Hc. apply orb_false_iff in Hc. destruct Hc as [Hcb Hq].
    destruct s1 as [| d s1]; cbn.
    + rewrite Ascii.eqb_sym, Hcb. reflexivity.
    + destruct (Ascii.eqb b d); [apply IH; exact Hq | reflexivity].
Qed.

Lemma count_sub_app_sep (c : ascii) (s1 s2 : string) :
  has_char c p = false ->
  Py.count_sub p (s1 ++ String c s2)
  = Py.count_sub p s1 + Py.count_sub p s2.
Proof.
  intros Hc. induction s1 as [| d s1 IH].
  - cbn. cbn in Hc. apply orb_false_iff in Hc. destruct Hc as [Hca _].
    rewrite Ascii.eqb_sym, Hca. reflexivity.
  - change (String d s1 ++ String c s2) with (String d (s1 ++ String c s2)).
    cbn [Py.count_sub].
    change (String d (s1 ++ String c s2))
      with (String d s1 ++ String c s2).
    rewrite (startswith_app_sep p c (String d s1) s2 Hc), IH. lia.
Qed.

Lemma count_sub_join (c : ascii) (l : list string) :
  has_char c p = false ->
  Py.count_sub p (Py.join (String c "") l)
  = list_sum (map (Py.count_sub p) l).
Proof.
  intros Hc. unfold Py.join. induction l as [| x l IH].
  - reflexivity.
  - destruct l as [| y l].
    + cbn. lia.
    + change (String.concat (String c "") (x :: y :: l))
        with (x ++ String c (String.concat (String c "") (y :: l))).
      rewrite (count_sub_app_sep c _ _ Hc), IH. reflexivity.
Qed.

(** No occurrence in a string that lacks the first character. *)
Lemma count_sub_no_first (s : string) :
  has_char a s = false -> Py.count_sub p s = 0.
Proof.
  induction s as [| b s IH]; cbn; intros H.
  - reflexivity.
  - apply orb_false_iff in H. destruct H as [Hab Hs].
    rewrite Hab. cbn. apply IH. exact Hs.
Qed.

End Counting.

Lemma eqb_digit_false (c d : ascii) :
  Py.isdigit c = false -> Py.isdigit d = true -> Ascii.eqb c d = false.
Proof.
  intros Hc Hd. destruct (Ascii.eqb_spec c d) as [E | E]; [| reflexivity].
  subst. rewrite Hc in Hd. discriminate Hd.
Qed.

(** [str] of an integer holds digits and at most a sign. *)
Lemma string_of_uint_digits (c : ascii) (d : Decimal.uint) :
  Py.isdigit c = false -> has_char c (NilEmpty.string_of_uint d) = false.
Proof.
  intros Hc. induction d; cbn [NilEmpty.string_of_uint has_char];
    try reflexivity; rewrite IHd, orb_false_r;
    apply (eqb_digit_false _ _ Hc); reflexivity.
Qed.

Lemma str_of_int_chars (c : ascii) (n : Z) :
  Py.isdigit c = false -> Ascii.eqb c "-" = false ->
  has_char c (Py.str_of_int n) = false.
Proof.
  intros Hd Hm. unfold Py.str_of_int.
  destruct n; cbn [Z.to_int NilEmpty.string_of_int has_char].
  - apply (string_of_uint_digits c _ Hd).
  - apply (string_of_uint_digits c _ Hd).
  - rewrite Hm. apply (string_of_uint_digits c _ Hd).
Qed.

(** The appended entry holds the text once more than the password does. *)
Lemma count_sub_auth_pass_entry (pw : string) :
  Py.count_sub auth_pass ("auth_pass=" ++ pw)
  = 1 + Py.count_sub auth_pass pw.
Proof. reflexivity. Qed.

Lemma append_one_char (c : ascii) (r : string) : String c "" ++ r = String c r.
Proof. reflexivity. Qed.

(** The occurrences of [auth_pass=] in the address are those in the user,
    the gateway, the flags and the password, and the one [sip] appends. *)
Lemma count_sub_sip_text (u pw g : string) (fl : list string) (pt : Z) :
  Py.count_sub auth_pass (sip_text u pw g fl pt)
  = Py.count_sub auth_pass u + Py.count_sub auth_pass g
    + list_sum (map (Py.count_sub auth_pass) fl)
    + 1 + Py.count_sub auth_pass pw.
Proof.
  unfold sip_text.
  change ("sip:" ++ u ++ "@" ++ g ++ ":" ++ Py.str_of_int pt ++ ";"
            ++ Py.join ";" (app fl ["auth_pass=" ++ pw]))
    with ("sip" ++ String ":" (u ++ String "@" (g ++ String ":"
            (Py.str_of_int pt ++ String ";"
               (Py.join ";" (app fl ["auth_pass=" ++ pw])))))).
  unfold auth_pass.
  rewrite !count_sub_app_sep by reflexivity.
  rewrite (count_sub_join "a" "uth_pass=" ";") by reflexivity.
  rewrite (count_sub_no_first "a" "uth_pass=" (Py.str_of_int pt))
    by (apply str_of_int_chars; reflexivity).
  rewrite map_app, list_sum_app.
  cbn [map list_sum].
  pose proof (count_sub_auth_pass_entry pw) as He. unfold auth_pass in He.
  rewrite He.
  change (Py.count_sub "auth_pass=" "sip") with 0.
  change (list_sum [1 + Py.count_sub "auth_pass=" pw])
    with (1 + Py.count_sub "auth_pass=" pw + 0).
  lia.
Qed.

Lemma list_sum_zero (f : string -> nat) (l : list string) :
  Forall (fun x => f x = 0) l -> list_sum (map f l) = 0.
Proof.
  induction 1 as [| x l Hx _ IH]; [reflexivity |].
  change (list_sum (map f (x :: l))) with (f x + list_sum (map f l)).
  rewrite Hx, IH. reflexivity.
Qed.

(** C5, for the identities whose fields do not hold the text themselves.
    When neither the user, the gateway, the password nor any flag contains
    [auth_pass=], reading [sip] any number of times in a row returns the
    same string each time, the string contains [auth_pass=] exactly once,
    and the list of flags is afterwards what it was before. *)
Theorem sip_repeatable (self : Identity) (h : Store.heap) (n : nat) :
  flags self < List.length h ->
  Py.contains auth_pass (user self) = false ->
  Py.contains auth_pass (gateway self) = false ->
  Py.contains auth_pass (password self) = false ->
  Forall (fun f => Py.contains auth_pass f = false)
         (Store.deref h (flags self)) ->
  let uri := fst (sip self h) in
  fst (sip_times n self h) = repeat uri n
  /\ Py.count_sub auth_pass uri = 1
  /\ Store.deref (snd (sip_times n self h)) (flags self)
     = Store.deref h (flags self).
Proof.
  intros Hl Hu Hg Hp Hf uri. subst uri.
  destruct (sip_times_spec n self h Hl) as [Htimes Hkeep].
  rewrite sip_eq. cbn [fst].
  split; [exact Htimes | split; [| apply Hkeep; exact Hl]].
  rewrite count_sub_sip_text.
  apply count_sub_zero_contains in Hu, Hg, Hp.
  rewrite Hu, Hg, Hp.
  rewrite list_sum_zero; [reflexivity |].
  eapply Forall_impl; [| exact Hf].
  intros f H. apply count_sub_zero_contains. exact H.
Qed.

Lemma sip_repeatable_witness :
  let uri := fst (sip alice [["regint=0"]]) in
  fst (sip_times 3 alice [["regint=0"]]) = repeat uri 3
  /\ Py.count_sub auth_pass uri = 1
  /\ Store.deref (snd (sip_times 3 alice [["regint=0"]])) (flags alice)
     = Store.deref [["regint=0"]] (flags alice).
Proof.
  apply (sip_repeatable alice [["regint=0"]] 3).
  - cbn. lia.
  - reflexivity.
  - reflexivity.
  - reflexivity.
  - repeat constructor.
Defined.

(** C5, as stated, fails for an identity that brings its own [auth_pass]
    flag: the address then contains the text twice. *)
Lemma sip_two_auth_pass_counterexample :
  let mallory := {| user := "mallory"; password := "pw";
                    gateway := "example.org"; flags := 0; port := 5060 |} in
  fst (sip mallory [["auth_pass=other"]])
  = "sip:mallory@example.org:5060;auth_pass=other;auth_pass=pw"
  /\ Py.count_sub auth_pass (fst (sip mallory [["auth_pass=other"]])) = 2.
Proof. split; reflexivity. Qed.

(** ** Start-up *)

(** C7, as the code has it.  From the session [__init__] leaves, the line
    [baresip is ready.] sets [ready] to true and writes nothing to the
    program; the line [account: No SIP accounts found] read after it writes
    the one line [/uanew ] followed by the address of the identity. *)
Theorem ready_then_no_accounts (identity : Identity) (h : Store.heap)
  (updated : bool) (tmp : string) (speech : string -> string) :
  flags identity < List.length h ->
  let s0 := init_session identity h updated tmp speech in
  let r1 := run [Line "baresip is ready."] s0 in
  let r2 := run [Line "baresip is ready.";
                 Line "account: No SIP accounts found"] s0 in
  ready s0 = false
  /\ ready (state r1) = true
  /\ sent (effects r1) = []
  /\ result r2 = Return tt
  /\ sent (effects r2) = ["/uanew " ++ fst (sip identity h)].
Proof.
  intros Hl s0 r1 r2. subst s0 r1 r2.
  pose proof (sip_keeps_lists identity h _ Hl) as Hk.
  rewrite sip_eq in Hk. cbn [snd] in Hk.
  cbv -[sip sip_text Py.join Py.str_of_int String.append Store.deref].
  rewrite !sip_eq.
  cbv -[sip sip_text Py.join Py.str_of_int String.append Store.deref] in *.
  rewrite Hk. repeat split.
Qed.

Lemma ready_then_no_accounts_witness :
  let s0 := session0 in
  let r1 := run [Line "baresip is ready."] s0 in
  let r2 := run [Line "baresip is ready.";
                 Line "account: No SIP accounts found"] s0 in
  ready s0 = false
  /\ ready (state r1) = true
  /\ sent (effects r1) = []
  /\ result r2 = Return tt
  /\ sent (effects r2) = ["/uanew " ++ fst (sip alice [["regint=0"]])].
Proof.
  apply (ready_then_no_accounts alice [["regint=0"]] false "/tmp"
           (fun _ => "/tmp/tts.mp3")).
  cbn. lia.
Defined.

(** C7, as stated, fails on its first half: [handle_ready] sets [ready],
    so it is true after the line [baresip is ready.]. *)
Lemma ready_after_first_line_counterexample :
  ready session0 = false
  /\ ready (state (run [Line "baresip is ready."] session0)) = true
  /\ ready (state (run [Line "baresip is ready."] session0)) <> false.
Proof. vm_compute. repeat split. discriminate. Qed.

Example uanew_line :
  sent (effects (run [Line "baresip is ready.";
                      Line "account: No SIP accounts found"] session0))
  = ["/uanew sip:alice@example.org:5060;regint=0;auth_pass=pw"].
Proof. vm_compute. reflexivity. Qed.

(** ** Validation of DTMF numbers *)

Lemma string_of_uint_all_digits (d : Decimal.uint) :
  forallb Py.isdigit (list_ascii_of_string (NilEmpty.string_of_uint d))
  = true.
Proof. induction d; cbn; auto. Qed.

(** The decimal representation of a number that is not negative holds
    digits only. *)
Lemma str_of_int_all_digits (n : Z) :
  (0 <= n)%Z ->
  forallb Py.isdigit (list_ascii_of_string (Py.str_of_int n)) = true.
Proof.
  intros H. unfold Py.str_of_int. destruct n; cbn [Z.to_int].
  - reflexivity.
  - apply string_of_uint_all_digits.
  - lia.
Qed.

(** On a digit, the test [int(n) not in range(0, 9)] of the source fails
    exactly for the digits 0 to 8. *)
Lemma in_range_digit (c : ascii) :
  Py.isdigit c = true -> in_range_0_9 (Py.digit_value c) = digit_0_8 c.
Proof.
  unfold Py.isdigit, in_range_0_9, Py.digit_value, digit_0_8.
  set (m := nat_of_ascii c). intros H.
  apply andb_true_iff in H. destruct H as [H1 H2].
  apply Nat.leb_le in H1. apply Nat.leb_le in H2.
  destruct (Nat.leb_spec 48 m), (Nat.leb_spec m 56),
    (Z.leb_spec 0 (Z.of_nat m - 48)), (Z.ltb_spec (Z.of_nat m - 48) 9);
    cbn; try reflexivity; lia.
Qed.

(** On a string of digits the loop of [send_dtmf] goes on to the code
    after it when all digits are 0 to 8, and otherwise logs the error and
    returns. *)
Lemma send_dtmf_loop_digits (s_number : string) (rest : M unit)
  (s : Session) :
  forallb Py.isdigit (list_ascii_of_string s_number) = true ->
  send_dtmf_loop s_number rest s
  = if forallb digit_0_8 (list_ascii_of_string s_number)
    then rest s
    else (Return tt, s, [logged ERROR "Invalid DTMF tone"]).
Proof.
  induction s_number as [| c s' IH]; cbn [send_dtmf_loop
    list_ascii_of_string forallb]; intros H.
  - reflexivity.
  - apply andb_true_iff in H. destruct H as [Hc Hs].
    unfold int_of_char, bind. rewrite Hc. cbn [ret].
    rewrite (in_range_digit c Hc).
    destruct (digit_0_8 c); cbn [negb andb].
    + rewrite (IH Hs).
      destruct (forallb digit_0_8 (list_ascii_of_string s'));
        [destruct (rest s) as [[o s1] t1] |]; reflexivity.
    + reflexivity.
Qed.

Lemma digit_9_not_0_8 (l : list ascii) :
  existsb (Ascii.eqb "9") l = true -> forallb digit_0_8 l = false.
Proof.
  induction l as [| c l IH]; cbn [existsb forallb]; intros H.
  - discriminate H.
  - apply orb_true_iff in H. destruct H as [H | H].
    + apply Ascii.eqb_eq in H. subst c. reflexivity.
    + rewrite (IH H). apply andb_false_r.
Qed.

(** C6, as the code has it.  For a number that is not negative: when every
    digit is 0 to 8 the number passes the validation, the tone file is
    generated and handed to [send_audio], and the two audio-source lines
    are written when a call is established and the session is ready, and
    no line otherwise; when some digit is 9 the number is rejected with the
    error record [Invalid DTMF tone] and nothing else happens.  123 has
    digits 0 to 8 only; 9 and 19 have a digit 9. *)
Theorem send_dtmf_validation (number : Z) (s : Session) :
  (0 <= number)%Z ->
  (all_digits_0_8 number = true ->
   let dtmf := Py.path_join (tmpdir s) (Py.str_of_int number ++ ".wav") in
   let r := send_dtmf number s in
   result r = Return tt
   /\ state r = s
   /\ In (dtmf_to_wave number dtmf) (effects r)
   /\ In (if status_eqb (_call_status s) ESTABLISHED
          then convert_audio dtmf (Py.path_join (tmpdir s) "pybaresip.wav")
          else logged ERROR "Can't send audio without an active call!")
         (effects r)
   /\ sent (effects r)
      = if status_eqb (_call_status s) ESTABLISHED && ready s
        then ["/ausrc aufile," ++ Py.path_join (tmpdir s) "pybaresip.wav";
              "/ausrc alsa,default"]
        else [])
  /\ (has_digit_9 number = true ->
      send_dtmf number s
      = (Return tt, s, [logged ERROR "Invalid DTMF tone"]))
  /\ (all_digits_0_8 123 = true
      /\ has_digit_9 9 = true
      /\ has_digit_9 19 = true).
Proof.
  intros Hn. pose proof (str_of_int_all_digits number Hn) as Hd.
  split; [| split; [| repeat split]].
  - intros H8 dtmf r. subst dtmf r. unfold send_dtmf.
    rewrite (send_dtmf_loop_digits _ _ s Hd).
    unfold all_digits_0_8 in H8. rewrite H8.
    unfold_methods.
    destruct (status_eqb (_call_status s) ESTABLISHED) eqn:He,
      (ready s) eqn:Hr;
      repeat (cbn -[Py.path_join Py.str_of_int String.append];
              rewrite ?He, ?Hr);
      repeat split; auto.
  - intros H9. unfold send_dtmf.
    rewrite (send_dtmf_loop_digits _ _ s Hd).
    unfold has_digit_9 in H9. rewrite (digit_9_not_0_8 _ H9). reflexivity.
Qed.

(** A session in an established call that is ready for commands. *)
Lemma send_dtmf_validation_witness :
  let s := set__call_status ESTABLISHED (set_ready true session0) in
  (all_digits_0_8 123 = true ->
   let dtmf := Py.path_join (tmpdir s) (Py.str_of_int 123 ++ ".wav") in
   let r := send_dtmf 123 s in
   result r = Return tt
   /\ state r = s
   /\ In (dtmf_to_wave 123 dtmf) (effects r)
   /\ In (if status_eqb (_call_status s) ESTABLISHED
          then convert_audio dtmf (Py.path_join (tmpdir s) "pybaresip.wav")
          else logged ERROR "Can't send audio without an active call!")
         (effects r)
   /\ sent (effects r)
      = if status_eqb (_call_status s) ESTABLISHED && ready s
        then ["/ausrc aufile," ++ Py.path_join (tmpdir s) "pybaresip.wav";
              "/ausrc alsa,default"]
        else [])
  /\ (has_digit_9 123 = true ->
      send_dtmf 123 s = (Return tt, s, [logged ERROR "Invalid DTMF tone"]))
  /\ (all_digits_0_8 123 = true
      /\ has_digit_9 9 = true
      /\ has_digit_9 19 = true).
Proof.
  apply (send_dtmf_validation 123
           (set__call_status ESTABLISHED (set_ready true session0))).
  lia.
Defined.

(** C6, as stated, fails when no call is established: 123 has digits 0 to
    8 only, and nothing is written to the program. *)
Lemma send_dtmf_without_call_counterexample :
  all_digits_0_8 123 = true
  /\ sent (effects (send_dtmf 123 (set_ready true session0))) = []
  /\ effects (send_dtmf 123 (set_ready true session0))
     = [logged INFO "Sending DTMF tones for 123";
        dtmf_to_wave 123 "/tmp/123.wav";
        logged ERROR "Can't send audio without an active call!"].
Proof. vm_compute. repeat split. Qed.

Example send_dtmf_examples :
  let s := set__call_status ESTABLISHED (set_ready true session0) in
  sent (effects (send_dtmf 123 s))
  = ["/ausrc aufile,/tmp/pybaresip.wav"; "/ausrc alsa,default"]
  /\ effects (send_dtmf 9 s) = [logged ERROR "Invalid DTMF tone"]
  /\ effects (send_dtmf 19 s) = [logged ERROR "Invalid DTMF tone"].
Proof. vm_compute. repeat split. Qed.

(** On a negative number the loop meets the sign first, and [int("-")]
    raises. *)
Example send_dtmf_negative :
  result (send_dtmf (-5) session0) = Raise ValueError.
Proof. vm_compute. reflexivity. Qed.

(** ** What the methods write *)

(** The validation loop of [send_dtmf] changes the session no more than
    the code after it does. *)
Lemma send_dtmf_loop_state (s_number : string) (rest : M unit)
  (s : Session) :
  state (rest s) = s -> state (send_dtmf_loop s_number rest s) = s.
Proof.
  intros Hrest. induction s_number as [| c s' IH]; cbn [send_dtmf_loop].
  - exact Hrest.
  - unfold int_of_char, bind, ret, raise, log, emit.
    destruct (Py.isdigit c); [| reflexivity].
    destruct (in_range_0_9 (Py.digit_value c)); cbn [negb].
    + unfold state in *.
      destruct (send_dtmf_loop s' rest s) as [[o s1] t1]. exact IH.
    + reflexivity.
Qed.

Lemma send_audio_state (wav_file : string) (s : Session) :
  state (send_audio wav_file s) = s.
Proof. unfold_methods. crunch; reflexivity. Qed.

Lemma send_dtmf_state (number : Z) (s : Session) :
  state (send_dtmf number s) = s.
Proof.
  unfold send_dtmf. apply send_dtmf_loop_state.
  pose proof (send_audio_state
                (Py.path_join (tmpdir s) (Py.str_of_int number ++ ".wav")) s)
    as H.
  revert H. unfold_methods. crunch; intros H; reflexivity.
Qed.

(** The session each public method leaves behind. *)
Lemma facade_state (op : facade_op) (s : Session) :
  match op with
  | op_hang =>
      match truthy (current_call s) with
      | Some _ =>
          state (facade op s)
          = set__call_status NONE (set_current_call None s)
      | None => state (facade op s) = s
      end
  | op_accept_call =>
      state (facade op s)
      = set__call_status ESTABLISHED
          (set__previous_call_status (_call_status s) s)
  | op_quit =>
      state (facade op s)
      = set_abort true
          (set__call_status NONE
             (set_current_call None (set_running false s)))
  | op_create_user_agent =>
      state (facade op s)
      = set_heap (snd (sip (_identity s)
                         (snd (sip (_identity s) (heap s))))) s
  | _ => state (facade op s) = s
  end.
Proof.
  destruct op; cbn [facade];
    try (rewrite send_dtmf_state; reflexivity);
    try (rewrite send_audio_state; reflexivity).
  all: unfold_methods; crunch; reflexivity.
Qed.

(** C9, as the code has it.  No public method writes [ready] or
    [mic_muted].  [hang] with a tracked call clears [current_call] and sets
    the status to NONE; [accept_call] records the previous status and sets
    the status to ESTABLISHED; [quit] clears [running] and [current_call],
    sets the status to NONE and sets [abort]; [create_user_agent] only adds
    list objects to the store; every other method leaves the session as it
    was. *)
Theorem facade_writes (op : facade_op) (s : Session) :
  let s' := state (facade op s) in
  ready s' = ready s
  /\ mic_muted s' = mic_muted s
  /\ match op with
     | op_hang =>
         match truthy (current_call s) with
         | Some _ => s' = set__call_status NONE (set_current_call None s)
         | None => s' = s
         end
     | op_accept_call =>
         s' = set__call_status ESTABLISHED
                (set__previous_call_status (_call_status s) s)
     | op_quit =>
         s' = set_abort true
                (set__call_status NONE
                   (set_current_call None (set_running false s)))
     | op_create_user_agent =>
         s' = set_heap (snd (sip (_identity s)
                               (snd (sip (_identity s) (heap s))))) s
     | _ => s' = s
     end.
Proof.
  intros s'. subst s'. pose proof (facade_state op s) as H.
  destruct op; try (rewrite H; repeat split; reflexivity).
  destruct (truthy (current_call s)); rewrite H; repeat split; reflexivity.
Qed.

(** C9, as stated, fails for [accept_call], which writes the status. *)
Lemma accept_call_writes_status_counterexample :
  _call_status session0 = NONE
  /\ _call_status (state (facade op_accept_call session0)) = ESTABLISHED
  /\ _call_status (state (facade op_accept_call session0))
     <> _call_status session0.
Proof. vm_compute. repeat split. discriminate. Qed.

(** [hang] writes it as well, on a session that tracks a call. *)
Example hang_writes_status :
  let s := state (run [Line "Call established:"]
                      (set_current_call (Some "bob") session0)) in
  _call_status s = ESTABLISHED
  /\ _call_status (state (facade op_hang s)) = NONE
  /\ current_call (state (facade op_hang s)) = None.
Proof. vm_compute. repeat split. Qed.

(** ** The tracked call along a session *)





Lemma quit_state (s : Session) :
  state (quit s)
  = set_abort true
      (set__call_status NONE (set_current_call None (set_running false s))).
Proof. exact (facade_state op_quit s). Qed.
















(** [hang] on a call whose name is empty takes the branch of no call and
    clears nothing. *)
Example hang_empty_callee :
  let s := set__call_status OUTGOING (set_current_call (Some "") session0) in
  state (facade op_hang s) = s
  /\ effects (facade op_hang s) = [logged ERROR "No active call to hang"].
Proof. vm_compute. split; reflexivity. Qed.

(** * Further properties of the driver *)

(** ** Shutting down *)

(** [quit] writes to the program only while the loop is running: the
    [/hangup] of a tracked call first, and only when the session is ready,
    then [/quit], which is not gated.  It always ends by closing and
    killing the program. *)
Theorem quit_lines (s : Session) :
  let r := quit s in
  result r = Return tt
  /\ sent (effects r)
     = (if running s
        then app (match truthy (current_call s) with
                  | Some _ => if ready s then ["/hangup"] else []
                  | None => []
                  end) ["/quit"]
        else [])
  /\ hooks (effects r) = []
  /\ firstn 2 (rev (effects r)) = [kill; close].
Proof.
  unfold_methods. crunch; repeat split; reflexivity.
Qed.

(** A second [quit] changes nothing more and writes nothing to the
    program: it only logs, restores the configuration again when the
    session had changed it, and closes and kills again. *)
Theorem quit_twice (s : Session) :
  let s1 := state (quit s) in
  state (quit s1) = s1
  /\ sent (effects (quit s1)) = []
  /\ effects (quit s1)
     = app (if updated_config s
            then [logged INFO "restoring original config"; restore_config]
            else [])
           [logged INFO "Exiting"; close; kill].
Proof.
  intros s1. subst s1. rewrite (quit_state s).
  unfold_methods; crunch; repeat split; reflexivity.
Qed.

(** ** What a turn of the loop and a method call keep *)


(** What every branch of the chain in [run] keeps. *)
Lemma dispatch_keeps (out : string) (s : Session) :
  let r := dispatch out s in
  (ready s = true -> ready (state r) = true)
  /\ (running s = false -> running (state r) = false)
  /\ (abort s = true -> abort (state r) = true)
  /\ (ready s = false -> Forall ungated (sent (effects r)))
  /\ _prev_output (state r) = _prev_output s.
Proof.
  intros r. remember r as r' eqn:E. subst r. revert r' E.
  unfold dispatch.
  repeat match goal with
    | |- context [if ?b then _ else _] =>
        match type of b with bool => destruct b eqn:? end
    end.
  all: unfold active_call_line; unfold_methods.
  all: crunch.
  all: intros r' E; subst r'; cbn;
    repeat split; try reflexivity; try congruence; intros;
    try congruence;
    repeat (first [apply Forall_nil | apply Forall_cons]);
    first [left; reflexivity | right; reflexivity].
Qed.

Lemma loop_body_keeps (raw : string) (s : Session) :
  let r := loop_body raw s in
  (ready s = true -> ready (state r) = true)
  /\ (running s = false -> running (state r) = false)
  /\ (abort s = true -> abort (state r) = true)
  /\ (ready s = false -> Forall ungated (sent (effects r))).
Proof.
  pose proof (dispatch_keeps (Py.strip raw) s) as H. cbv zeta in *.
  unfold loop_body, bind, gets, log, emit, modify.
  destruct (String.eqb raw (_prev_output s)); cbn [negb].
  - repeat split; auto; intros _; apply Forall_nil.
  - unfold state, effects in *.
    destruct (dispatch (Py.strip raw) s) as [[o s1] t1].
    destruct H as (H1 & H2 & H3 & H4 & _).
    destruct o; cbn in *; rewrite ?app_nil_r; repeat split; assumption.
Qed.

Lemma iteration_keeps (r : read) (s : Session) :
  (ready s = true -> ready (state (iteration r s)) = true)
  /\ (running s = false -> running (state (iteration r s)) = false)
  /\ (abort s = true -> abort (state (iteration r s)) = true)
  /\ (ready s = false -> Forall ungated (sent (effects (iteration r s)))).
Proof.
  destruct r; cbn [iteration]; [apply loop_body_keeps | | | |];
    repeat split; auto; intros _; apply Forall_nil.
Qed.

(** What [quit] does, case by case. *)
Lemma quit_effects (s : Session) :
  sent (effects (quit s))
  = (if running s
     then app (match truthy (current_call s) with
               | Some _ => if ready s then ["/hangup"] else []
               | None => []
               end) ["/quit"]
     else [])
  /\ hooks (effects (quit s)) = []
  /\ result (quit s) = Return tt.
Proof. unfold_methods. crunch; repeat split; reflexivity. Qed.

(** The effects of the validation loop of [send_dtmf]: those of the code
    after it, the error record, or none when [int] raises. *)
Lemma send_dtmf_loop_effects (s_number : string) (rest : M unit)
  (s : Session) :
  effects (send_dtmf_loop s_number rest s) = effects (rest s)
  \/ effects (send_dtmf_loop s_number rest s)
     = [logged ERROR "Invalid DTMF tone"]
  \/ effects (send_dtmf_loop s_number rest s) = [].
Proof.
  induction s_number as [| c s' IH]; cbn [send_dtmf_loop].
  - left. reflexivity.
  - unfold int_of_char, bind, ret, raise, log, emit.
    destruct (Py.isdigit c); [| right; right; reflexivity].
    destruct (in_range_0_9 (Py.digit_value c)); cbn [negb].
    + unfold effects in *.
      destruct (send_dtmf_loop s' rest s) as [[o s1] t1]. exact IH.
    + right; left. reflexivity.
Qed.

(** The lines and the hooks of every public method. *)
Lemma facade_effects (op : facade_op) (s : Session) :
  (ready s = false -> Forall ungated (sent (effects (facade op s))))
  /\ hooks (effects (facade op s))
     = match op with
       | op_accept_call => [onCallStatusChanged (_call_status s) ESTABLISHED]
       | _ => []
       end.
Proof.
  destruct op; cbn [facade].
  13: { unfold send_dtmf.
        match goal with
        | |- context [send_dtmf_loop ?a ?b s] =>
            destruct (send_dtmf_loop_effects a b s) as [E | [E | E]];
            rewrite E; clear E
        end; [| split; [intros; apply Forall_nil | reflexivity] ..].
        unfold_methods. crunch; split; intros; try reflexivity;
          try congruence; apply Forall_nil. }
  all: unfold_methods; crunch; split; intros; try reflexivity;
    try congruence;
    repeat (first [apply Forall_nil | apply Forall_cons]);
    first [left; reflexivity | right; reflexivity].
Qed.

Lemma facade_keeps (op : facade_op) (s : Session) :
  ready (state (facade op s)) = ready s
  /\ (running s = false -> running (state (facade op s)) = false)
  /\ (abort s = true -> abort (state (facade op s)) = true).
Proof.
  pose proof (facade_state op s) as H.
  destruct op; try (rewrite H; repeat split; auto).
  destruct (truthy (current_call s)); rewrite H; repeat split; auto.
Qed.

(** One step of a session, in terms of the method it runs. *)
Lemma sent_app (a b : list Effect) : sent (app a b) = app (sent a) (sent b).
Proof.
  induction a as [| x a IH]; [reflexivity |].
  destruct x; cbn; rewrite ?IH; reflexivity.
Qed.

Lemma step_keeps (w : World) (e : event) :
  (ready (object w) = true -> ready (object (step w e)) = true)
  /\ (running (object w) = false -> running (object (step w e)) = false)
  /\ (abort (object w) = true -> abort (object (step w e)) = true)
  /\ exists t, trace (step w e) = app (trace w) t
               /\ (ready (object w) = false -> Forall ungated (sent t)).
Proof.
  destruct e as [r | op]; unfold step.
  - destruct (thread w).
    + pose proof (iteration_keeps r (object w)) as (H1 & H2 & H3 & H4).
      unfold state, effects in *.
      destruct (iteration r (object w)) as [[o s1] t1]. cbn [fst snd] in *.
      destruct o as [a | x].
      * destruct (running s1) eqn:Hr.
        -- cbn. split; [| split; [| split]]; auto.
           ++ intros Hx. specialize (H2 Hx). congruence.
           ++ exists t1. split; auto.
        -- pose proof (quit_state s1) as Hq.
           pose proof (quit_effects s1) as (Hs & _ & _).
           rewrite Hr in Hs. unfold state, effects in *.
           destruct (quit s1) as [[o' s2] t2]. cbn [fst snd] in *.
           subst s2. cbn. split; [| split; [| split]]; auto.
           exists (app t1 t2). split; [reflexivity |].
           intros Hn. rewrite sent_app, Hs, app_nil_r. auto.
      * cbn. split; [| split; [| split]]; auto;
          try (exists t1; split; auto).
    + split; [| split; [| split]]; auto.
      exists []. rewrite app_nil_r. split; auto.
    + split; [| split; [| split]]; auto.
      exists []. rewrite app_nil_r. split; auto.
  - pose proof (facade_keeps op (object w)) as (H1 & H2 & H3).
    pose proof (facade_effects op (object w)) as (H4 & _).
    unfold state, effects in *.
    destruct (facade op (object w)) as [[o s1] t1]. cbn [fst snd] in *.
    cbn. split; [| split; [| split]]; auto; try congruence;
      try (exists t1; split; auto).
Qed.

(** Nothing ever resets [ready]: once a session is ready it stays ready
    through every later read and method call, also after [quit]. *)
Theorem ready_never_reset (w : World) (evs : list event) :
  ready (object w) = true -> ready (object (exec w evs)) = true.
Proof.
  revert w. induction evs as [| e evs IH]; intros w H; [exact H |].
  unfold exec. cbn [fold_left]. apply IH. apply step_keeps. exact H.
Qed.

Lemma ready_never_reset_witness :
  let w := exec (started session0)
             [delivers (Line "baresip is ready.")] in
  ready (object w) = true
  /\ ready (object (exec w [invokes op_quit; delivers (Line "ua: stop all");
                            invokes (op_call "5551234")])) = true.
Proof.
  split; [reflexivity |].
  apply (ready_never_reset
           (exec (started session0) [delivers (Line "baresip is ready.")])
           [invokes op_quit; delivers (Line "ua: stop all");
            invokes (op_call "5551234")]).
  reflexivity.
Defined.

(** A session that has stopped stays stopped: once [quit] has set [abort]
    and cleared [running], no read and no method call undoes either. *)
Theorem stopped_stays_stopped (w : World) (evs : list event) :
  running (object w) = false -> abort (object w) = true ->
  running (object (exec w evs)) = false
  /\ abort (object (exec w evs)) = true.
Proof.
  revert w. induction evs as [| e evs IH]; intros w Hr Ha;
    [split; assumption |].
  unfold exec. cbn [fold_left]. apply IH; apply step_keeps; assumption.
Qed.

Lemma stopped_stays_stopped_witness :
  let w := exec (started session0) [invokes op_quit] in
  running (object (exec w [delivers (Line "Call established:");
                           invokes op_accept_call])) = false
  /\ abort (object (exec w [delivers (Line "Call established:");
                            invokes op_accept_call])) = true.
Proof.
  apply (stopped_stays_stopped (exec (started session0) [invokes op_quit])
           [delivers (Line "Call established:"); invokes op_accept_call]);
    reflexivity.
Defined.

(** While the session is not ready a step writes nothing to the program
    but the two lines that bypass [do_command]: the account creation
    [/uanew ...] and [/quit]. *)
Theorem not_ready_only_ungated (w : World) (e : event) :
  ready (object w) = false ->
  exists t, trace (step w e) = app (trace w) t /\ Forall ungated (sent t).
Proof.
  intros H. destruct (step_keeps w e) as (_ & _ & _ & t & Ht & Hu).
  exists t. split; [exact Ht | apply Hu; exact H].
Qed.

Lemma not_ready_only_ungated_witness :
  exists t,
    trace (step (started session0)
                (delivers (Line "account: No SIP accounts found")))
    = app (trace (started session0)) t
    /\ Forall ungated (sent t).
Proof.
  apply (not_ready_only_ungated (started session0)
           (delivers (Line "account: No SIP accounts found"))).
  reflexivity.
Defined.

(** Of the public methods only [accept_call] calls a hook.  In particular
    [hang] and [quit] set the status to NONE without calling the
    status-change hook. *)
Theorem facade_hooks (op : facade_op) (s : Session) :
  hooks (effects (facade op s))
  = match op with
    | op_accept_call => [onCallStatusChanged (_call_status s) ESTABLISHED]
    | _ => []
    end.
Proof. apply facade_effects. Qed.

(** ** The end of the loop *)

Lemma run_loop_stopped (rs : list read) (s : Session) :
  running s = false -> run_loop rs s = quit s.
Proof.
  intros H. destruct rs; cbn [run_loop]; unfold bind, gets; rewrite H;
    destruct (quit s) as [[o s1] t1]; reflexivity.
Qed.

Lemma run_loop_cons (x : read) (rs : list read) (s : Session) :
  run_loop (x :: rs) s
  = if running s
    then match iteration x s with
         | (Return _, s1, t1) =>
             let '(r, s2, t2) := run_loop rs s1 in (r, s2, app t1 t2)
         | (Raise e, s1, t1) => (Raise e, s1, t1)
         end
    else quit s.
Proof.
  cbn [run_loop]. unfold bind, gets. destruct (running s).
  - destruct (iteration x s) as [[o s1] t1]. destruct o; [| reflexivity].
    destruct (run_loop rs s1) as [[o2 s2] t2]. reflexivity.
  - destruct (quit s) as [[o s1] t1]. reflexivity.
Qed.

(** ** The end of the stream *)

(** An empty line takes no branch of the chain. *)
Lemma dispatch_empty (s : Session) : dispatch "" s = (Return tt, s, []).
Proof.
  unfold dispatch. cbn [Py.contains Py.startswith orb andb].
  destruct ("--- List of active calls (1): ---" isin _prev_output s);
    reflexivity.
Qed.

Lemma loop_body_empty (s : Session) :
  loop_body "" s
  = if String.eqb "" (_prev_output s) then (Return tt, s, [])
    else (Return tt, set__prev_output "" s, [logged DEBUG "baresip> "]).
Proof.
  unfold loop_body, bind, gets. cbn [fst snd].
  destruct (String.eqb "" (_prev_output s)); cbn [negb]; [reflexivity |].
  change (Py.strip "") with "".
  unfold log, emit, modify. rewrite dispatch_empty. reflexivity.
Qed.

Lemma run_loop_empty_reads (n : nat) (s : Session) :
  running s = true ->
  run_loop (repeat (Line "") n) s
  = if (n =? 0)%nat || String.eqb "" (_prev_output s)
    then (Return tt, s, [])
    else (Return tt, set__prev_output "" s, [logged DEBUG "baresip> "]).
Proof.
  revert s. induction n as [| n IH]; intros s Hr.
  - cbn [repeat run_loop]. unfold bind, gets. rewrite Hr. reflexivity.
  - cbn [repeat Nat.eqb orb]. rewrite run_loop_cons, Hr.
    cbn [iteration]. rewrite loop_body_empty.
    destruct (String.eqb "" (_prev_output s)) eqn:E.
    + rewrite (IH s Hr), E, orb_true_r. reflexivity.
    + rewrite (IH (set__prev_output "" s) Hr).
      cbn [_prev_output set__prev_output String.eqb].
      rewrite orb_true_r. reflexivity.
Qed.

(** At the end of the stream pexpect's [readline] returns the empty byte
    string, again at every call.  [run] does not leave the loop on such
    reads: after any number of them it is still in the loop with
    [running] set, [quit] has not run, nothing was written to the program
    and no hook was called.  The first of them changes the remembered
    line and writes a debug record, the others change nothing. *)
Theorem run_spins_on_empty_reads (n : nat) (s : Session) :
  run (repeat (Line "") n) s
  = if (n =? 0)%nat || String.eqb "" (_prev_output s)
    then (Return tt, set_running true s, [])
    else (Return tt, set__prev_output "" (set_running true s),
          [logged DEBUG "baresip> "]).
Proof.
  unfold run, bind, modify.
  rewrite (run_loop_empty_reads n (set_running true s) eq_refl).
  cbn [_prev_output set_running].
  destruct ((n =? 0)%nat || String.eqb "" (_prev_output s)); reflexivity.
Qed.

(** [quit] ends by closing and killing the program. *)
Lemma quit_ends (s : Session) :
  exists before, effects (quit s) = app before [close; kill].
Proof.
  unfold_methods. crunch;
    match goal with
    | |- exists b, ?l = _ =>
        exists (removelast (removelast l)); reflexivity
    end.
Qed.

Lemma run_loop_torn_down (rs : list read) (s : Session) :
  result (run_loop rs s) = Return tt ->
  running (state (run_loop rs s)) = false ->
  abort (state (run_loop rs s)) = true
  /\ _call_status (state (run_loop rs s)) = NONE
  /\ current_call (state (run_loop rs s)) = None
  /\ exists before, effects (run_loop rs s) = app before [close; kill].
Proof.
  revert s. induction rs as [| x rs IH]; intros s.
  - cbn [run_loop]. unfold bind, gets, ret.
    destruct (running s) eqn:Hr.
    + cbn. intros _ H. congruence.
    + pose proof (quit_state s) as Hq. pose proof (quit_ends s) as [b Hb].
      unfold state, effects, result in *.
      destruct (quit s) as [[o s1] t1]. cbn [fst snd] in *. subst s1 t1.
      cbn. intros _ _. repeat split. exists b. reflexivity.
  - cbn [run_loop]. unfold bind, gets.
    destruct (running s) eqn:Hr.
    + destruct (iteration x s) as [[o s1] t1]. destruct o.
      * specialize (IH s1). unfold state, effects, result in *.
        destruct (run_loop rs s1) as [[o2 s2] t2]. cbn [fst snd] in *.
        intros H1 H2. destruct (IH H1 H2) as (Ha & Hs & Hc & b & Hb).
        repeat split; auto. exists (app t1 b). subst t2.
        cbn. rewrite app_assoc. reflexivity.
      * cbn. intros H. discriminate H.
    + pose proof (quit_state s) as Hq. pose proof (quit_ends s) as [b Hb].
      unfold state, effects, result in *.
      destruct (quit s) as [[o s1] t1]. cbn [fst snd] in *. subst s1 t1.
      cbn. intros _ _. repeat split. exists b. reflexivity.
Qed.

(** When [run] has returned, the session is torn down: [abort] is set, the
    status is NONE, no call is tracked, and the last two things done were
    closing and killing the program. *)
Theorem run_returns_torn_down (rs : list read) (s : Session) :
  result (run rs s) = Return tt ->
  running (state (run rs s)) = false ->
  abort (state (run rs s)) = true
  /\ _call_status (state (run rs s)) = NONE
  /\ current_call (state (run rs s)) = None
  /\ exists before, effects (run rs s) = app before [close; kill].
Proof.
  unfold run, bind, modify.
  pose proof (run_loop_torn_down rs (set_running true s)) as H.
  unfold state, effects, result in *.
  destruct (run_loop rs (set_running true s)) as [[o s1] t1].
  cbn [fst snd app] in *. exact H.
Qed.

Lemma run_returns_torn_down_witness :
  let rs := [Line "Call established:"; Line "ua: stop all"] in
  abort (state (run rs session0)) = true
  /\ _call_status (state (run rs session0)) = NONE
  /\ current_call (state (run rs session0)) = None
  /\ exists before, effects (run rs session0) = app before [close; kill].
Proof.
  apply (run_returns_torn_down
           [Line "Call established:"; Line "ua: stop all"] session0);
    reflexivity.
Defined.

(** ** Muting *)

(** [mute_mic] and [unmute_mic] send the same toggle [/mute] and do not
    record that they did: [mic_muted] changes only when the program
    confirms.  In an established, ready call with the microphone live, a
    second [mute_mic] before the confirmation sends the toggle a second
    time; once the line [call muted] has been read, [mute_mic] sends
    nothing and [unmute_mic] sends the toggle. *)
Theorem mute_toggle (s : Session) :
  _call_status s = ESTABLISHED -> ready s = true -> mic_muted s = false ->
  _prev_output s <> "call muted" ->
  sent (effects ((mute_mic ;; mute_mic) s)) = ["/mute"; "/mute"]
  /\ let s1 := state ((mute_mic ;; loop_body "call muted") s) in
     mic_muted s1 = true
     /\ sent (effects (mute_mic s1)) = []
     /\ sent (effects (unmute_mic s1)) = ["/mute"].
Proof.
  intros He Hr Hm Hp.
  pose proof (eqb_of_neq _ _ (not_eq_sym Hp)) as Hq.
  assert (E1 : mute_mic s
               = (Return tt, s, [logged INFO "Muting mic"; sendline "/mute"])).
  { unfold_methods. repeat (mcbn; rewrite ?He, ?Hr, ?Hm). reflexivity. }
  assert (E2 : exists t,
             loop_body "call muted" s
             = (Return tt,
                set__prev_output "call muted" (set_mic_muted true s), t)).
  { eexists. unfold loop_body, bind, gets. rewrite Hq. strip_literal.
    cbn. reflexivity. }
  destruct E2 as [t E2].
  split.
  - unfold bind. rewrite !E1. reflexivity.
  - unfold bind. rewrite !E1, E2. cbn [state fst snd].
    unfold_methods. repeat (mcbn; rewrite ?He, ?Hr). repeat split.
Qed.

Lemma mute_toggle_witness :
  let s := set__call_status ESTABLISHED (set_ready true session0) in
  sent (effects ((mute_mic ;; mute_mic) s)) = ["/mute"; "/mute"]
  /\ let s1 := state ((mute_mic ;; loop_body "call muted") s) in
     mic_muted s1 = true
     /\ sent (effects (mute_mic s1)) = []
     /\ sent (effects (unmute_mic s1)) = ["/mute"].
Proof.
  apply (mute_toggle (set__call_status ESTABLISHED (set_ready true session0)));
    try reflexivity.
  cbn. discriminate.
Defined.

(** A line that strips to itself and is read twice in a row is skipped the
    second time. *)
Lemma loop_body_repeat_stripped_witness :
  loop_body "call muted" (state (loop_body "call muted" session0))
  = (Return tt, state (loop_body "call muted" session0), []).
Proof.
  apply (loop_body_repeat_stripped "call muted" session0); reflexivity.
Defined.

(** ** Splitting and searching *)

Section Splitting.

Variable c : ascii.
Variable sep' : string.
Local Abbreviation sep := (String c sep').

(** Without an occurrence of the separator the split is the string
    itself. *)
Lemma split_go_absent (s : string) :
  Py.contains sep s = false -> Py.split_go sep 0 s = (s, []).
Proof.
  induction s as [| a s IH]; [reflexivity |].
  cbn [Py.contains Py.split_go].
  destruct (Py.startswith sep (String a s)); [discriminate |].
  intros H. rewrite (IH H). reflexivity.
Qed.

(** With an occurrence the split has a second piece. *)
Lemma split_go_present (s : string) :
  Py.contains sep s = true ->
  exists p q ps, Py.split_go sep 0 s = (p, q :: ps).
Proof.
  induction s as [| a s IH].
  - cbn. discriminate.
  - cbn [Py.contains Py.split_go].
    destruct (Py.startswith sep (String a s)).
    + intros _.
      destruct (Py.split_go sep (String.length sep - 1) s) as [p ps].
      exists "", p, ps. reflexivity.
    + intros H. destruct (IH H) as (p & q & ps & E). rewrite E.
      exists (String a p), q, ps. reflexivity.
Qed.

(** [s.split(sep)[0]] always exists. *)
Lemma split_nth0 (s : string) : nth_error (Py.split s sep) 0 <> None.
Proof.
  unfold Py.split. destruct (Py.split_go sep 0 s) as [p ps]. discriminate.
Qed.

(** [s.split(sep)[1]] exists exactly when [sep in s]. *)
Lemma split_nth1 (s : string) :
  nth_error (Py.split s sep) 1 = None <-> Py.contains sep s = false.
Proof.
  unfold Py.split. split; intros H.
  - destruct (Py.contains sep s) eqn:E; [| reflexivity].
    destruct (split_go_present s E) as (p & q & ps & E').
    rewrite E' in H. discriminate H.
  - rewrite (split_go_absent s H). reflexivity.
Qed.

End Splitting.

(** A text that occurs in [s] after some prefix of a longer text occurs in
    [s]. *)
Lemma startswith_app_contains (a q s : string) :
  Py.startswith (a ++ q) s = true -> Py.contains q s = true.
Proof.
  revert s. induction a as [| x a IH]; intros s; cbn [String.append].
  - intros H. destruct s; cbn [Py.contains]; rewrite H; reflexivity.
  - destruct s as [| y s]; cbn [Py.startswith]; [discriminate |].
    destruct (Ascii.eqb x y); [| discriminate].
    intros H. cbn [Py.contains]. rewrite (IH s H).
    destruct (Py.startswith q (String y s)); reflexivity.
Qed.

Lemma contains_drop_prefix (a q s : string) :
  Py.contains (a ++ q) s = true -> Py.contains q s = true.
Proof.
  induction s as [| y s IH]; cbn [Py.contains].
  - destruct (Py.startswith (a ++ q) "") eqn:E; [| discriminate].
    intros _. apply (startswith_app_contains a q "" E).
  - destruct (Py.startswith (a ++ q) (String y s)) eqn:E.
    + intros _. pose proof (startswith_app_contains a q _ E) as H.
      cbn [Py.contains] in H. exact H.
    + intros H. rewrite (IH H).
      destruct (Py.startswith q (String y s)); reflexivity.
Qed.

(** ** The lines that end the reader thread *)

Ltac absurd_subscript :=
  match goal with
  | H : nth_error (Py.split _ _) 0 = None |- _ =>
      exfalso; exact (split_nth0 _ _ _ H)
  | H : nth_error (Py.split ?s ?sep) 1 = None,
    H' : (?sep isin ?s) = true |- _ =>
      apply split_nth1 in H; congruence
  | H : nth_error (Py.split ?s "rejecting incoming call from ") 1 = None,
    H' : ("call: rejecting incoming call from " isin ?s) = true |- _ =>
      apply split_nth1 in H;
      pose proof (contains_drop_prefix "call: "
                    "rejecting incoming call from " s H');
      congruence
  end.

Lemma dispatch_raises (out : string) (s : Session) (e : exn) :
  result (dispatch out s) = Raise e ->
  state (dispatch out s) = s
  /\ effects (dispatch out s) = []
  /\ crash_condition out s e.
Proof.
  remember (dispatch out s) as r eqn:E. revert r E.
  unfold dispatch.
  repeat match goal with
    | |- context [if ?b then _ else _] =>
        match type of b with bool => destruct b eqn:? end
    end.
  all: unfold active_call_line; unfold_methods.
  all: crunch.
  all: intros r E; subst r; cbn; intros H; try discriminate H.
  all: try absurd_subscript.
  all: injection H as <-; split; [reflexivity | split; [reflexivity |]].
  all: unfold crash_condition.
  all: repeat match goal with
         | H : nth_error (Py.split _ _) 1 = None |- _ =>
             apply split_nth1 in H
         end.
  all: try (exfalso;
            match goal with
            | Ha : (_ && _) = true, Hb : _ = false |- _ =>
                apply andb_true_iff in Ha; destruct Ha as [_ Ha];
                discriminate (eq_trans (eq_sym Ha) Hb)
            end).
  all: first
    [ left; repeat split; assumption
    | right; left; repeat split; assumption
    | right; right; split; [assumption | split; [assumption |]];
      first [ left; split; [reflexivity | assumption]
            | right; split; [reflexivity |]; eexists; split; eassumption ] ].
Qed.

(** The statements under [try] that come after the decoding raise only
    on those lines, and then they leave the session as it was. *)
Lemma loop_body_raises (raw : string) (s : Session) (e : exn) :
  result (loop_body raw s) = Raise e ->
  state (loop_body raw s) = s
  /\ sent (effects (loop_body raw s)) = []
  /\ hooks (effects (loop_body raw s)) = []
  /\ crash_condition (Py.strip raw) s e.
Proof.
  pose proof (dispatch_raises (Py.strip raw) s e) as H.
  unfold loop_body, bind, gets, log, emit, modify.
  destruct (String.eqb raw (_prev_output s)); cbn [negb].
  - cbn. discriminate.
  - unfold state, effects, result in *.
    destruct (dispatch (Py.strip raw) s) as [[o s1] t1]. cbn [fst snd] in *.
    destruct o; cbn.
    + discriminate.
    + intros He. destruct (H He) as (Hs & Ht & Hc). subst.
      repeat split. exact Hc.
Qed.

(** A turn of the loop raises only on bytes that are not UTF-8 and on the
    lines of [crash_condition], and then it leaves the session as it was:
    nothing was written to the program and no hook was called. *)
Theorem iteration_raises (r : read) (s : Session) (e : exn) :
  result (iteration r s) = Raise e ->
  state (iteration r s) = s
  /\ sent (effects (iteration r s)) = []
  /\ hooks (effects (iteration r s)) = []
  /\ match r with
     | Line raw => crash_condition (Py.strip raw) s e
     | Undecodable => e = UnicodeDecodeError
     | _ => False
     end.
Proof.
  destruct r; cbn [iteration].
  - apply loop_body_raises.
  - cbn. discriminate.
  - cbn. discriminate.
  - cbn. discriminate.
  - cbn. intros H. injection H as <-. repeat split.
Qed.

Lemma iteration_raises_witness :
  let r := Line ("call: connecting to bob" ++ Py.CRLF) in
  state (iteration r session0) = session0
  /\ sent (effects (iteration r session0)) = []
  /\ hooks (effects (iteration r session0)) = []
  /\ crash_condition (Py.strip ("call: connecting to bob" ++ Py.CRLF))
       session0 IndexError.
Proof.
  apply (iteration_raises (Line ("call: connecting to bob" ++ Py.CRLF))
           session0 IndexError).
  reflexivity.
Defined.

(** ** Reading the number of an incoming call *)

Lemma startswith_self (p b : string) : Py.startswith p (p ++ b) = true.
Proof.
  induction p as [| a p IH]; cbn; [reflexivity |].
  rewrite Ascii.eqb_refl. exact IH.
Qed.

Section CharacterClass.

Variable cls : ascii -> bool.

Lemma eqb_outside (x y : ascii) :
  cls x = false -> cls y = true -> Ascii.eqb x y = false.
Proof.
  intros Hx Hy. destruct (Ascii.eqb_spec x y) as [E | E]; [| reflexivity].
  subst. rewrite Hx in Hy. discriminate Hy.
Qed.

(** A text that starts outside the class does not start within a string
    of the class. *)
Lemma contains_skip (p0 : ascii) (p' a t : string) :
  cls p0 = false -> all_in cls a = true ->
  Py.contains (String p0 p') (a ++ t) = Py.contains (String p0 p') t.
Proof.
  intros Hp. unfold all_in. induction a as [| x a IH]; [reflexivity |].
  cbn [list_ascii_of_string forallb]. intros H.
  apply andb_true_iff in H. destruct H as [Hx Ha].
  cbn [String.append Py.contains Py.startswith].
  rewrite (eqb_outside p0 x Hp Hx). apply IH. exact Ha.
Qed.

(** Splitting at a separator that starts outside the class: the first
    piece of [a ++ sep ++ b] is [a]. *)
Lemma split_go_first (c : ascii) (sep' a b : string) :
  cls c = false -> all_in cls a = true ->
  fst (Py.split_go (String c sep') 0 (a ++ String c sep' ++ b)) = a.
Proof.
  intros Hc. unfold all_in. induction a as [| x a IH].
  - intros _. cbn [String.append].
    change (String c (sep' ++ b)) with (String c sep' ++ b).
    pose proof (startswith_self (String c sep') b) as H.
    cbn [String.append] in *. cbn [Py.split_go]. rewrite H. reflexivity.
  - cbn [list_ascii_of_string forallb]. intros H.
    apply andb_true_iff in H. destruct H as [Hx Ha].
    change (String x a ++ String c sep' ++ b)
      with (String x (a ++ String c sep' ++ b)).
    cbn [Py.split_go Py.startswith].
    rewrite (eqb_outside c x Hc Hx). specialize (IH Ha).
    destruct (Py.split_go (String c sep') 0 (a ++ String c sep' ++ b))
      as [p ps].
    cbn [fst] in *. rewrite IH. reflexivity.
Qed.

Hypothesis no_space : forall x, cls x = true -> Py.isspace x = false.

Lemma lstrip_class (a t : string) :
  all_in cls a = true -> a <> "" -> Py.lstrip (a ++ t) = a ++ t.
Proof.
  unfold all_in. destruct a as [| x a]; [congruence |].
  cbn [list_ascii_of_string forallb]. intros H _.
  apply andb_true_iff in H. destruct H as [Hx _].
  cbn [String.append Py.lstrip]. rewrite (no_space x Hx). reflexivity.
Qed.

Lemma rstrip_class (a : string) : all_in cls a = true -> Py.rstrip a = a.
Proof.
  unfold all_in. induction a as [| x a IH]; [reflexivity |].
  cbn [list_ascii_of_string forallb]. intros H.
  apply andb_true_iff in H. destruct H as [Hx Ha].
  cbn [Py.rstrip]. rewrite (IH Ha), (no_space x Hx).
  destruct a; reflexivity.
Qed.

Lemma strip_class (a : string) : all_in cls a = true -> Py.strip a = a.
Proof.
  intros H. unfold Py.strip.
  destruct a as [| x a]; [reflexivity |].
  pose proof (lstrip_class (String x a) "" H) as Hl.
  assert (E : String x a ++ "" = String x a).
  { clear. induction (String x a) as [| y s IH]; cbn; congruence. }
  rewrite E in Hl. rewrite Hl by discriminate. apply rstrip_class. exact H.
Qed.

End CharacterClass.

(** What survives stripping on the right is kept when text comes before
    it. *)
Lemma rstrip_app (a b : string) :
  Py.rstrip b <> "" -> Py.rstrip (a ++ b) = a ++ Py.rstrip b.
Proof.
  intros H. induction a as [| x a IH]; [reflexivity |].
  cbn [String.append Py.rstrip]. rewrite IH.
  destruct (a ++ Py.rstrip b) eqn:E; [| reflexivity].
  exfalso. destruct a; cbn in E; [congruence | discriminate E].
Qed.

Lemma phone_char_no_space (x : ascii) :
  phone_char x = true -> Py.isspace x = false.
Proof.
  unfold phone_char. destruct (Ascii.eqb_spec x "+") as [E | _].
  - subst. reflexivity.
  - rewrite orb_false_r. unfold Py.isdigit, Py.isspace.
    set (n := nat_of_ascii x). intros H.
    apply andb_true_iff in H. destruct H as [H1 H2].
    apply Nat.leb_le in H1. apply Nat.leb_le in H2.
    destruct (Nat.leb_spec 9 n), (Nat.leb_spec n 13), (Nat.leb_spec 28 n),
      (Nat.leb_spec n 32), (Nat.eqb_spec n 133), (Nat.eqb_spec n 160);
      cbn; try reflexivity; lia.
Qed.

(** The one earlier trigger that starts with a digit cannot end inside the
    tail of an incoming-call line. *)
Lemma no_401_in_number (a : string) :
  all_in phone_char a = true ->
  Py.contains "401 Unauthorized" (a ++ " - (press 'a' to accept)") = false.
Proof.
  unfold all_in. induction a as [| x a IH]; [reflexivity |].
  cbn [list_ascii_of_string forallb]. intros H.
  apply andb_true_iff in H. destruct H as [Hx Ha].
  cbn [String.append Py.contains]. rewrite (IH Ha).
  assert (E : Py.startswith "401 Unauthorized"
                (String x (a ++ " - (press 'a' to accept)")) = false).
  { destruct a as [| x1 [| x2 [| x3 a]]]; cbn [String.append Py.startswith].
    - destruct (Ascii.eqb "4" x); reflexivity.
    - destruct (Ascii.eqb "4" x), (Ascii.eqb "0" x1); reflexivity.
    - destruct (Ascii.eqb "4" x), (Ascii.eqb "0" x1), (Ascii.eqb "1" x2);
        reflexivity.
    - cbn [list_ascii_of_string forallb] in Ha.
      apply andb_true_iff in Ha. destruct Ha as [_ Ha].
      apply andb_true_iff in Ha. destruct Ha as [_ Ha].
      apply andb_true_iff in Ha. destruct Ha as [H3 _].
      assert (E3 : Ascii.eqb " " x3 = false)
        by (apply (eqb_outside phone_char); [reflexivity | exact H3]).
      rewrite E3.
      destruct (Ascii.eqb "4" x), (Ascii.eqb "0" x1), (Ascii.eqb "1" x2);
        reflexivity. }
  rewrite E. reflexivity.
Qed.

(** The line baresip prints for an incoming call, with a telephone number
    of digits and plus signs: the loop tracks exactly that number, sets
    the status to INCOMING, calls the status-change hook and then the
    incoming-call hook with the number, and rejects the call with [b] when
    the session is ready. *)
Theorem incoming_call_number (num : string) (s : Session) :
  phone_number num = true ->
  _prev_output s
  <> "Incoming call from: " ++ num ++ " - (press 'a' to accept)" ++ Py.CRLF ->
  let r := loop_body ("Incoming call from: " ++ num
                        ++ " - (press 'a' to accept)" ++ Py.CRLF) s in
  result r = Return tt
  /\ current_call (state r) = Some num
  /\ _call_status (state r) = INCOMING
  /\ _previous_call_status (state r) = _call_status s
  /\ hooks (effects r)
     = [onCallStatusChanged (_call_status s) INCOMING; onIncomingCall num]
  /\ sent (effects r) = (if ready s then ["b"] else [])
  /\ _prev_output (state r)
     = "Incoming call from: " ++ num ++ " - (press 'a' to accept)".
Proof.
  intros Hnum.
  set (T := " - (press 'a' to accept)").
  intros Hprev r. subst r.
  set (line := "Incoming call from: " ++ num ++ T).
  assert (Hstrip :
    Py.strip ("Incoming call from: " ++ num ++ T ++ Py.CRLF) = line).
  { unfold Py.strip.
    change (Py.lstrip ("Incoming call from: " ++ num ++ T ++ Py.CRLF))
      with ("Incoming call from: " ++ num ++ T ++ Py.CRLF).
    assert (HT : Py.rstrip (T ++ Py.CRLF) = T) by reflexivity.
    rewrite (rstrip_app "Incoming call from: ").
    - rewrite (rstrip_app num); rewrite HT; [reflexivity | discriminate].
    - rewrite (rstrip_app num); rewrite HT; [| discriminate].
      destruct num; discriminate. }
  assert (Hskip : forall p0 p', phone_char p0 = false ->
            Py.contains (String p0 p') (num ++ T)
            = Py.contains (String p0 p') T).
  { intros p0 p' Hp. apply (contains_skip phone_char); assumption. }
  assert (H1 : ("baresip is ready." isin line) = false)
    by (exact (Hskip "b"%char _ eq_refl)).
  assert (H2 : ("account: No SIP accounts found" isin line) = false)
    by (exact (Hskip "a"%char _ eq_refl)).
  assert (H3 : ("All 1 useragent registered successfully!" isin line) = false)
    by (exact (Hskip "A"%char _ eq_refl)).
  assert (H4 : ("ua: SIP register failed:" isin line) = false)
    by (exact (Hskip "u"%char _ eq_refl)).
  assert (H5 : ("401 Unauthorized" isin line) = false)
    by (exact (no_401_in_number num Hnum)).
  assert (H6 : ("Register: Destination address required" isin line) = false)
    by (exact (Hskip "R"%char _ eq_refl)).
  assert (H7 : ("Register: Connection timed out" isin line) = false)
    by (exact (Hskip "R"%char _ eq_refl)).
  assert (H8 : ("Incoming call from: " isin line) = true) by reflexivity.
  assert (HM : ("Incoming call from: " isin (num ++ T)) = false)
    by (exact (Hskip "I"%char _ eq_refl)).
  assert (S1 : nth_error (Py.split line "Incoming call from: ") 1
               = Some (num ++ T)).
  { change (Py.split line "Incoming call from: ")
      with ("" :: (let '(p, ps) :=
                     Py.split_go "Incoming call from: " 0 (num ++ T)
                   in p :: ps)).
    rewrite (split_go_absent _ _ _ HM). reflexivity. }
  assert (S2 : nth_error (Py.split (num ++ T) T) 0 = Some num).
  { unfold Py.split.
    pose proof (split_go_first phone_char " "%char "- (press 'a' to accept)"
                  num "" eq_refl Hnum) as Hf.
    change (fst (Py.split_go T 0 (num ++ T)) = num) in Hf.
    destruct (Py.split_go T 0 (num ++ T)) as [p ps]. cbn in Hf. subst p.
    reflexivity. }
  assert (S3 : Py.strip num = num)
    by (exact (strip_class phone_char phone_char_no_space num Hnum)).
  subst line T.
  unfold loop_body, bind, gets.
  rewrite (eqb_of_neq _ _ (not_eq_sym Hprev)). cbn [negb].
  rewrite Hstrip.
  unfold dispatch. rewrite H1, H2, H3, H4, H5, H6, H7, H8. cbn [orb].
  unfold_methods. rewrite S1. mcbn. rewrite S2. mcbn. rewrite S3.
  destruct (ready s) eqn:Hr, (status_eqb INCOMING ESTABLISHED) eqn:He;
    try discriminate He;
    repeat (mcbn; rewrite ?Hr, ?He); repeat split.
Qed.

Lemma incoming_call_number_witness :
  let s := set_ready true session0 in
  let r := loop_body ("Incoming call from: " ++ "+15551234"
                        ++ " - (press 'a' to accept)" ++ Py.CRLF) s in
  result r = Return tt
  /\ current_call (state r) = Some "+15551234"
  /\ _call_status (state r) = INCOMING
  /\ _previous_call_status (state r) = _call_status s
  /\ hooks (effects r)
     = [onCallStatusChanged (_call_status s) INCOMING;
        onIncomingCall "+15551234"]
  /\ sent (effects r) = (if ready s then ["b"] else [])
  /\ _prev_output (state r)
     = "Incoming call from: " ++ "+15551234" ++ " - (press 'a' to accept)".
Proof.
  apply (incoming_call_number "+15551234" (set_ready true session0)).
  - reflexivity.
  - cbn. discriminate.
Defined.

(** ** The components of the address *)

Section Components.

Variable c : ascii.
Local Abbreviation sep := (String c "").

Lemma has_char_app (a b : string) :
  has_char c (a ++ b) = has_char c a || has_char c b.
Proof.
  induction a as [| x a IH]; cbn; [reflexivity |].
  rewrite IH. apply orb_assoc.
Qed.

Lemma split_go_char_absent (a : string) :
  has_char c a = false -> Py.split_go sep 0 a = (a, []).
Proof.
  induction a as [| x a IH]; [reflexivity |].
  cbn [has_char Py.split_go Py.startswith]. intros H.
  apply orb_false_iff in H. destruct H as [Hx Ha].
  rewrite Hx, (IH Ha). reflexivity.
Qed.

Lemma split_go_char (a b : string) :
  has_char c a = false ->
  Py.split_go sep 0 (a ++ String c b)
  = (a, let '(p, ps) := Py.split_go sep 0 b in p :: ps).
Proof.
  induction a as [| x a IH].
  - intros _. cbn [String.append Py.split_go Py.startswith].
    rewrite Ascii.eqb_refl. reflexivity.
  - cbn [has_char]. intros H.
    apply orb_false_iff in H. destruct H as [Hx Ha].
    cbn [String.append Py.split_go Py.startswith].
    rewrite Hx, (IH Ha). reflexivity.
Qed.

(** Joining with a character that no item contains and splitting at that
    character gives the items back. *)
Lemma split_join (x : string) (l : list string) :
  Forall (fun y => has_char c y = false) (x :: l) ->
  Py.split (Py.join sep (x :: l)) sep = x :: l.
Proof.
  unfold Py.split, Py.join. revert x.
  induction l as [| y l IH]; intros x H.
  - cbn [String.concat]. rewrite split_go_char_absent; [reflexivity |].
    inversion H; assumption.
  - change (String.concat sep (x :: y :: l))
      with (x ++ String c (String.concat sep (y :: l))).
    inversion H as [| ? ? Hx Hl]; subst.
    rewrite (split_go_char _ _ Hx).
    specialize (IH y Hl).
    destruct (Py.split_go sep 0 (String.concat sep (y :: l))) as [p ps].
    rewrite IH. reflexivity.
Qed.

End Components.

Lemma append_assoc (a b d : string) : (a ++ b) ++ d = a ++ b ++ d.
Proof. induction a as [| x a IH]; cbn; [reflexivity | rewrite IH; reflexivity]. Qed.

(** What baresip reads back from the address: split at the semicolons, it
    is the account part followed by the flags in their order and the
    password entry, provided no field holds a semicolon itself. *)
Theorem sip_components (self : Identity) (h : Store.heap) :
  has_char ";" (user self) = false ->
  has_char ";" (gateway self) = false ->
  has_char ";" (password self) = false ->
  Forall (fun f => has_char ";" f = false) (Store.deref h (flags self)) ->
  Py.split (fst (sip self h)) ";"
  = ("sip:" ++ user self ++ "@" ++ gateway self ++ ":"
       ++ Py.str_of_int (port self))
    :: app (Store.deref h (flags self)) ["auth_pass=" ++ password self].
Proof.
  intros Hu Hg Hp Hf. rewrite sip_eq. cbn [fst]. unfold sip_text.
  set (head := "sip:" ++ user self ++ "@" ++ gateway self ++ ":"
                 ++ Py.str_of_int (port self)).
  set (items := app (Store.deref h (flags self))
                    ["auth_pass=" ++ password self]).
  assert (E : "sip:" ++ user self ++ "@" ++ gateway self ++ ":"
                ++ Py.str_of_int (port self) ++ ";" ++ Py.join ";" items
              = Py.join ";" (head :: items)).
  { unfold Py.join, head.
    assert (Hne : exists y l, items = y :: l).
    { unfold items. destruct (Store.deref h (flags self)); cbn; eauto. }
    destruct Hne as (y & l & ->).
    change (String.concat ";" (("sip:" ++ user self ++ "@" ++ gateway self
                                  ++ ":" ++ Py.str_of_int (port self))
                                 :: y :: l))
      with (("sip:" ++ user self ++ "@" ++ gateway self ++ ":"
               ++ Py.str_of_int (port self))
              ++ ";" ++ String.concat ";" (y :: l)).
    rewrite !append_assoc. reflexivity. }
  rewrite E. apply (split_join ";"%char).
  constructor.
  - unfold head. rewrite !has_char_app, Hu, Hg.
    rewrite (str_of_int_chars ";" (port self)) by reflexivity. reflexivity.
  - unfold items. apply Forall_app. split; [exact Hf |].
    constructor; [| constructor].
    rewrite has_char_app, Hp. reflexivity.
Qed.

Lemma sip_components_witness :
  Py.split (fst (sip alice [["regint=0"]])) ";"
  = ("sip:" ++ user alice ++ "@" ++ gateway alice ++ ":"
       ++ Py.str_of_int (port alice))
    :: app (Store.deref [["regint=0"]] (flags alice))
           ["auth_pass=" ++ password alice].
Proof.
  apply (sip_components alice [["regint=0"]]); try reflexivity.
  repeat constructor.
Defined.

(** ** Local playback *)

Lemma assign_item_middle (done todo : list string) (x w : string) :
  assign_item (List.length done) w (app done (x :: todo))
  = app done (w :: todo).
Proof.
  induction done as [| y done IH]; cbn; [reflexivity |].
  rewrite IH. reflexivity.
Qed.

Lemma _play_wav_loop_spec (wav_file : string) (todo done : list string) :
  _play_wav_loop (List.length todo) (List.length done) wav_file
    (app done todo)
  = app done
      (map (fun cmd => if String.eqb cmd "%1" then wav_file else cmd) todo).
Proof.
  revert done. induction todo as [| x todo IH]; intros done.
  - reflexivity.
  - cbn [List.length _play_wav_loop map].
    rewrite nth_error_app2 by lia. rewrite Nat.sub_diag. cbn [nth_error].
    specialize (IH (app done
      [if String.eqb x "%1" then wav_file else x])).
    rewrite length_app in IH. cbn [List.length] in IH.
    rewrite Nat.add_1_r in IH.
    rewrite <- !app_assoc in IH. cbn [app] in IH.
    destruct (String.eqb x "%1").
    + rewrite assign_item_middle. exact IH.
    + exact IH.
Qed.

(** The command [_play_wav] runs: the words of [play_cmd] between single
    spaces, with every word [%1] replaced by the file name and every other
    word kept.  The file name is one argument whatever it contains. *)
Theorem _play_wav_argv (call : list string -> Z)
  (wav_file play_cmd : string) (blocking : bool) :
  let argv := map (fun cmd => if String.eqb cmd "%1" then wav_file else cmd)
                  (Py.split play_cmd " ") in
  _play_wav call wav_file play_cmd blocking
  = (if blocking then returncode (call argv) else process argv)
  /\ List.length argv = List.length (Py.split play_cmd " ")
  /\ _play_wav call wav_file "aplay %1" false = process ["aplay"; wav_file].
Proof.
  assert (E : forall cmd,
    _play_wav_loop (List.length (Py.split cmd " ")) 0 wav_file
      (Py.split cmd " ")
    = map (fun c => if String.eqb c "%1" then wav_file else c)
          (Py.split cmd " ")).
  { intros cmd. exact (_play_wav_loop_spec wav_file (Py.split cmd " ") []). }
  intros argv. subst argv. unfold _play_wav. rewrite !E.
  split; [reflexivity | split; [apply length_map | reflexivity]].
Qed.

Lemma endswith_app (suffix a b : string) :
  endswith suffix b = true -> endswith suffix (a ++ b) = true.
Proof.
  intros H. induction a as [| x a IH]; [exact H |].
  cbn [String.append endswith]. rewrite IH. apply orb_true_r.
Qed.

Lemma _play_wav_default (call : list string -> Z) (wav_file : string)
  (blocking : bool) :
  _play_wav call wav_file "aplay %1" blocking
  = if blocking then returncode (call ["aplay"; wav_file])
    else process ["aplay"; wav_file].
Proof. reflexivity. Qed.

(** [play] converts exactly the files whose name does not end in [.wav],
    and hands [aplay] the file given or else the converted file; either
    way the name [aplay] gets ends in [.wav]. *)
Theorem play_wav_file (call : list string -> Z) (tmp audio_file : string)
  (blocking : bool) :
  let file := if endswith ".wav" audio_file then audio_file
              else Py.path_join tmp "pybaresip.wav" in
  play call tmp audio_file blocking
  = (if endswith ".wav" audio_file then None else Some audio_file,
     if blocking then returncode (call ["aplay"; file])
     else process ["aplay"; file])
  /\ endswith ".wav" file = true.
Proof.
  intros file. subst file. unfold play.
  destruct (endswith ".wav" audio_file) eqn:E; cbn [negb];
    rewrite _play_wav_default; (split; [reflexivity |]).
  - exact E.
  - unfold Py.path_join.
    change (Py.startswith "/" "pybaresip.wav") with false. cbn iota.
    destruct ((tmp =? "") || Py.endswith_slash tmp);
      [| change (tmp ++ "/" ++ "pybaresip.wav")
           with (tmp ++ String "/" "pybaresip.wav")];
      apply endswith_app; reflexivity.
Qed.

(** [stop_playing] after [play]: the process is killed when the playback
    was started without blocking; after a blocking playback, which is the
    default, [self.audio] is a return code and [stop_playing] raises
    [AttributeError]. *)
Theorem stop_after_play (call : list string -> Z) (tmp audio_file : string) :
  stop_playing (Some (snd (play call tmp audio_file false))) = process_killed
  /\ stop_playing (Some (snd (play call tmp audio_file true)))
     = AttributeError
  /\ stop_playing None = nothing_played.
Proof.
  unfold play.
  destruct (endswith ".wav" audio_file); cbn [negb snd];
    rewrite !_play_wav_default; repeat split.
Qed.

(** ** The configuration file *)

Lemma replace_absent (c : ascii) (old' s new : string) :
  Py.contains (String c old') s = false ->
  Config.replace s (String c old') new = s.
Proof.
  intros H. unfold Config.replace, Py.split.
  rewrite (split_go_absent c old' s H). reflexivity.
Qed.

(** After [__init__] and [quit] the configuration file holds the text
    [__init__] found, or the default text when there was no file, whatever
    was asked about the sounds; and whenever [__init__] wrote the file it
    first saved that text in the backup. *)
Theorem config_restored (DEFAULT : string) (sounds_path : Config.sounds)
  (fs : Config.files) :
  let original := match Config.config_file fs with
                  | Some text => text
                  | None => DEFAULT
                  end in
  let c := fst (Config.init DEFAULT sounds_path fs) in
  let fs1 := snd (Config.init DEFAULT sounds_path fs) in
  Config._original_config c = original
  /\ Config.config_file (Config.quit c fs1) = Some original
  /\ (if Config.updated_config c
      then Config.config_file fs1 = Some (Config.config c)
           /\ Config.config_bak fs1 = Some original
      else fs1 = fs /\ Config.config c = original).
Proof.
  unfold Config.init, Config.quit.
  destruct fs as [[text |] bak], sounds_path as [| | path [|]];
    cbn [Config.config_file];
    try destruct ("#audio_path" isin text);
    try destruct ("#audio_path" isin DEFAULT);
    cbn; repeat split.
Qed.

(** Only the stock line is rewritten: when the text has no line
    [#audio_path<TAB><TAB>/usr/share/baresip], the configuration text is
    the one found, also when sounds were disabled or redirected. *)
Theorem config_kept_without_stock_line (DEFAULT : string)
  (sounds_path : Config.sounds) (fs : Config.files) :
  let original := match Config.config_file fs with
                  | Some text => text
                  | None => DEFAULT
                  end in
  (Config.stock_audio_path isin original) = false ->
  Config.config (fst (Config.init DEFAULT sounds_path fs)) = original.
Proof.
  intros original H. subst original. unfold Config.init.
  destruct fs as [[text |] bak], sounds_path as [| | path [|]];
    cbn [Config.config_file] in *;
    try destruct ("#audio_path" isin text);
    try destruct ("#audio_path" isin DEFAULT);
    cbn [fst Config.config]; try reflexivity;
    apply (replace_absent "#"%char); exact H.
Qed.

Lemma config_kept_without_stock_line_witness :
  Config.config (fst (Config.init "" Config.sounds_false
                        {| Config.config_file := Some "#audio_path /opt";
                           Config.config_bak := None |}))
  = "#audio_path /opt".
Proof.
  apply (config_kept_without_stock_line "" Config.sounds_false
           {| Config.config_file := Some "#audio_path /opt";
              Config.config_bak := None |}).
  reflexivity.
Defined.

(** ** Numbers as text *)

Lemma int_of_uint_pos (d : Decimal.uint) (acc : positive) :
  fold_left (fun a c => 10 * a + Py.digit_value c)%Z
    (list_ascii_of_string (NilEmpty.string_of_uint d)) (Z.pos acc)
  = Z.pos (Pos.of_uint_acc d acc).
Proof.
  revert acc.
  induction d; intros acc;
    cbn [NilEmpty.string_of_uint list_ascii_of_string fold_left
         Pos.of_uint_acc];
    [reflexivity | ..];
    match goal with
    | |- context [Py.digit_value ?c] =>
        let v := eval vm_compute in (Py.digit_value c) in
        change (Py.digit_value c) with v
    end;
    rewrite <- IHd; f_equal; lia.
Qed.

Lemma int_of_uint (d : Decimal.uint) :
  fold_left (fun a c => 10 * a + Py.digit_value c)%Z
    (list_ascii_of_string (NilEmpty.string_of_uint d)) 0%Z
  = Z.of_N (Pos.of_uint d).
Proof.
  induction d;
    cbn [NilEmpty.string_of_uint list_ascii_of_string fold_left Pos.of_uint];
    [reflexivity | ..];
    match goal with
    | |- context [Py.digit_value ?c] =>
        let v := eval vm_compute in (Py.digit_value c) in
        change (Py.digit_value c) with v
    end;
    cbn [Z.mul Z.add]; first [exact IHd | apply int_of_uint_pos].
Qed.

(** [int(str(n)) == n] for a number that is not negative. *)
Lemma int_of_str (n : Z) :
  (0 <= n)%Z -> Py.int_of_digits (Py.str_of_int n) = n.
Proof.
  intros H. unfold Py.int_of_digits, Py.str_of_int.
  destruct n as [| p | p]; cbn [Z.to_int NilEmpty.string_of_int].
  - reflexivity.
  - rewrite int_of_uint, DecimalPos.Unsigned.of_to. reflexivity.
  - lia.
Qed.

Lemma str_of_int_nonempty (n : Z) :
  (0 <= n)%Z -> exists x r, Py.str_of_int n = String x r.
Proof.
  intros H. unfold Py.str_of_int.
  destruct n as [| p | p]; cbn [Z.to_int NilEmpty.string_of_int].
  - exists "0"%char, "". reflexivity.
  - pose proof (DecimalPos.Unsigned.to_uint_nonnil p) as Hn.
    destruct (Pos.to_uint p); cbn [NilEmpty.string_of_uint];
      first [congruence | eexists; eexists; reflexivity].
  - lia.
Qed.

Lemma span_digits_app (ds : string) (x : ascii) (r : string) :
  forallb Py.isdigit (list_ascii_of_string ds) = true ->
  Py.isdigit x = false ->
  Py.span_digits (ds ++ String x r) = (ds, String x r).
Proof.
  intros H Hx. induction ds as [| d ds IH].
  - cbn. rewrite Hx. reflexivity.
  - cbn [list_ascii_of_string forallb] in H.
    apply andb_true_iff in H. destruct H as [Hd Hs].
    cbn [String.append Py.span_digits]. rewrite Hd, (IH Hs). reflexivity.
Qed.

(** ** A key pressed by the other side *)

Lemma contains_cons_absent (p0 : ascii) (p' : string) (c : ascii)
  (rest : string) :
  Py.startswith p' rest = false ->
  Py.contains (String p0 p') rest = false ->
  Py.contains (String p0 p') (String c rest) = false.
Proof.
  intros H1 H2. cbn [Py.contains Py.startswith].
  rewrite H1, H2. destruct (Ascii.eqb p0 c); reflexivity.
Qed.

(** The trigger that starts with a digit does not occur in a number that
    is followed by a closing parenthesis. *)
Lemma no_401_in_digits (a : string) :
  all_in Py.isdigit a = true ->
  Py.contains "401 Unauthorized" (a ++ ")") = false.
Proof.
  unfold all_in. induction a as [| x a IH]; [reflexivity |].
  cbn [list_ascii_of_string forallb]. intros H.
  apply andb_true_iff in H. destruct H as [Hx Ha].
  cbn [String.append Py.contains]. rewrite (IH Ha).
  assert (E : Py.startswith "401 Unauthorized" (String x (a ++ ")")) = false).
  { destruct a as [| x1 [| x2 [| x3 a]]]; cbn [String.append Py.startswith].
    - destruct (Ascii.eqb "4" x); reflexivity.
    - destruct (Ascii.eqb "4" x), (Ascii.eqb "0" x1); reflexivity.
    - destruct (Ascii.eqb "4" x), (Ascii.eqb "0" x1), (Ascii.eqb "1" x2);
        reflexivity.
    - cbn [list_ascii_of_string forallb] in Ha.
      apply andb_true_iff in Ha. destruct Ha as [_ Ha].
      apply andb_true_iff in Ha. destruct Ha as [_ Ha].
      apply andb_true_iff in Ha. destruct Ha as [H3 _].
      assert (E3 : Ascii.eqb " " x3 = false)
        by (apply (eqb_outside Py.isdigit); [reflexivity | exact H3]).
      rewrite E3.
      destruct (Ascii.eqb "4" x), (Ascii.eqb "0" x1), (Ascii.eqb "1" x2);
        reflexivity. }
  rewrite E. reflexivity.
Qed.

Lemma dtmf_search_here (s : string) (m : ascii * string) :
  Py.dtmf_match_here s = Some m -> Py.dtmf_search s = Some m.
Proof. intros H. destruct s; cbn [Py.dtmf_search]; rewrite H; reflexivity. Qed.

(** The pattern of the source matches the line baresip prints for a key,
    and its groups are the key and the digits of the duration. *)
Lemma dtmf_search_line (c : ascii) (ds : string) :
  c <> Py.LF -> all_in Py.isdigit ds = true -> ds <> "" ->
  Py.dtmf_search ("received DTMF: '" ++ String c ("' (duration=" ++ ds ++ ")"))
  = Some (c, ds).
Proof.
  intros Hc Hds Hne. apply dtmf_search_here. unfold Py.dtmf_match_here.
  change (Py.strip_prefix "received DTMF: '"
            ("received DTMF: '" ++ String c ("' (duration=" ++ ds ++ ")")))
    with (Some (String c ("' (duration=" ++ ds ++ ")"))).
  cbv iota beta.
  destruct (Ascii.eqb_spec c Py.LF) as [E | _]; [contradiction |].
  change (Py.strip_prefix "' (duration=" ("' (duration=" ++ ds ++ ")"))
    with (Some (ds ++ ")")).
  cbv iota beta.
  rewrite (span_digits_app ds ")" "" Hds eq_refl).
  destruct ds; [congruence | reflexivity].
Qed.

Lemma isdigit_no_space (x : ascii) :
  Py.isdigit x = true -> Py.isspace x = false.
Proof.
  intros H. apply phone_char_no_space. unfold phone_char. rewrite H.
  reflexivity.
Qed.

Ltac absent_in_key_line c ds Hd Hds :=
  lazymatch goal with
  | |- (String ?p0 ?p' isin _) = false =>
      first
        [ exact (contains_cons_absent p0 p' c ("' (duration=" ++ ds ++ ")")
                   eq_refl (Hd p0 p' eq_refl))
        | exact (contains_cons_absent p0 p' c ("' (duration=" ++ ds ++ ")")
                   eq_refl (no_401_in_digits ds Hds)) ]
  end.

(** The line baresip prints when the other side presses a key, for every
    key symbol but a line feed and every duration that is not negative:
    outside a listing of the active calls, the loop calls the DTMF hook
    once, with the symbol and with the duration as a number, writes
    nothing to the program and changes nothing but the line it
    remembers. *)
Theorem dtmf_received (c : ascii) (duration : Z) (s : Session) :
  c <> Py.LF ->
  (0 <= duration)%Z ->
  ("--- List of active calls (1): ---" isin _prev_output s) = false ->
  _prev_output s
  <> "received DTMF: '" ++ String c "" ++ "' (duration="
       ++ Py.str_of_int duration ++ ")" ++ Py.CRLF ->
  let r := loop_body ("received DTMF: '" ++ String c "" ++ "' (duration="
                        ++ Py.str_of_int duration ++ ")" ++ Py.CRLF) s in
  result r = Return tt
  /\ hooks (effects r) = [onDtmfReceived c duration]
  /\ sent (effects r) = []
  /\ state r
     = set__prev_output
         ("received DTMF: '" ++ String c "" ++ "' (duration="
            ++ Py.str_of_int duration ++ ")") s.
Proof.
  intros Hc Hdur Hlist.
  pose proof (str_of_int_all_digits duration Hdur) as Hds.
  pose proof (int_of_str duration Hdur) as Hint.
  destruct (str_of_int_nonempty duration Hdur) as [d0 [ds' Hne]].
  set (ds := Py.str_of_int duration) in *.
  intros Hprev r. subst r.
  set (line := "received DTMF: '" ++ String c "" ++ "' (duration="
                 ++ ds ++ ")").
  assert (Hstrip :
    Py.strip ("received DTMF: '" ++ String c "" ++ "' (duration="
                ++ ds ++ ")" ++ Py.CRLF) = line).
  { unfold Py.strip.
    change (Py.lstrip ("received DTMF: '" ++ String c "" ++ "' (duration="
                         ++ ds ++ ")" ++ Py.CRLF))
      with ("received DTMF: '" ++ String c "" ++ "' (duration="
              ++ ds ++ ")" ++ Py.CRLF).
    assert (HT : Py.rstrip (")" ++ Py.CRLF) = ")") by reflexivity.
    change ("received DTMF: '" ++ String c "" ++ "' (duration="
              ++ ds ++ ")" ++ Py.CRLF)
      with (("received DTMF: '" ++ String c "" ++ "' (duration=")
              ++ ds ++ ")" ++ Py.CRLF).
    rewrite (rstrip_app ("received DTMF: '" ++ String c "" ++ "' (duration=")).
    - rewrite (rstrip_app ds); rewrite HT; [reflexivity | discriminate].
    - rewrite (rstrip_app ds); rewrite HT; [| discriminate].
      rewrite Hne. discriminate. }
  assert (Hd : forall p0 p', Py.isdigit p0 = false ->
            Py.contains (String p0 p') (ds ++ ")")
            = Py.contains (String p0 p') ")").
  { intros p0 p' Hp. apply (contains_skip Py.isdigit); assumption. }
  assert (H1 : ("baresip is ready." isin line) = false)
    by absent_in_key_line c ds Hd Hds.
  assert (H2 : ("account: No SIP accounts found" isin line) = false)
    by absent_in_key_line c ds Hd Hds.
  assert (H3 : ("All 1 useragent registered successfully!" isin line) = false)
    by absent_in_key_line c ds Hd Hds.
  assert (H4 : ("ua: SIP register failed:" isin line) = false)
    by absent_in_key_line c ds Hd Hds.
  assert (H5 : ("401 Unauthorized" isin line) = false)
    by absent_in_key_line c ds Hd Hds.
  assert (H6 : ("Register: Destination address required" isin line) = false)
    by absent_in_key_line c ds Hd Hds.
  assert (H7 : ("Register: Connection timed out" isin line) = false)
    by absent_in_key_line c ds Hd Hds.
  assert (H8 : ("Incoming call from: " isin line) = false)
    by absent_in_key_line c ds Hd Hds.
  assert (H9 : ("call: rejecting incoming call from " isin line) = false)
    by absent_in_key_line c ds Hd Hds.
  assert (H10 : ("call: SIP Progress: 180 Ringing" isin line) = false)
    by absent_in_key_line c ds Hd Hds.
  assert (H11 : ("call: connecting to " isin line) = false)
    by absent_in_key_line c ds Hd Hds.
  assert (H12 : ("Call established:" isin line) = false)
    by absent_in_key_line c ds Hd Hds.
  assert (H13 : ("call: hold " isin line) = false)
    by absent_in_key_line c ds Hd Hds.
  assert (H14 : ("Call with " isin line) = false)
    by absent_in_key_line c ds Hd Hds.
  assert (H15 : ("call muted" isin line) = false)
    by absent_in_key_line c ds Hd Hds.
  assert (H16 : ("call un-muted" isin line) = false)
    by absent_in_key_line c ds Hd Hds.
  assert (H17 : ("session closed:" isin line) = false)
    by absent_in_key_line c ds Hd Hds.
  assert (H18 : ("(no active calls)" isin line) = false)
    by absent_in_key_line c ds Hd Hds.
  assert (H19 : ("===== Call debug " isin line) = false).
  { subst line. rewrite Hne.
    apply (contains_cons_absent "=" "==== Call debug " c); [reflexivity |].
    change (("===== Call debug "
               isin ("' (duration=" ++ String d0 ds' ++ ")"))
            = false)
      with ((if (if Ascii.eqb "=" d0
                  then Py.startswith "=== Call debug " (ds' ++ ")")
                  else false)
             then true
             else ("===== Call debug " isin (String d0 ds' ++ ")")))
            = false).
    rewrite Hne in Hds, Hd.
    assert (E : Ascii.eqb "=" d0 = false).
    { apply (eqb_outside Py.isdigit); [reflexivity |].
      unfold all_in in Hds. cbn [list_ascii_of_string forallb] in Hds.
      apply andb_true_iff in Hds. tauto. }
    rewrite E. exact (Hd "="%char _ eq_refl). }
  assert (H20 : ("failed to set audio-source (No such device)" isin line)
                = false)
    by absent_in_key_line c ds Hd Hds.
  assert (H21 : ("terminated by signal" isin line) = false)
    by absent_in_key_line c ds Hd Hds.
  assert (H22 : ("ua: stop all" isin line) = false)
    by absent_in_key_line c ds Hd Hds.
  assert (H23 : ("received DTMF:" isin line) = true) by reflexivity.
  assert (HS : Py.dtmf_search line = Some (c, ds)).
  { apply dtmf_search_line; [exact Hc | exact Hds |].
    rewrite Hne. discriminate. }
  assert (Hline : line = "received DTMF: '" ++ String c "" ++ "' (duration="
                           ++ ds ++ ")") by reflexivity.
  clearbody line.
  unfold loop_body, bind, gets.
  rewrite (eqb_of_neq _ _ (not_eq_sym Hprev)). cbn [negb].
  rewrite Hstrip.
  unfold dispatch, log, emit. cbn [fst snd].
  rewrite H1, H2, H3, H4, H5, H6, H7, H8, H9, H10, H11, H12, H13, H14, H15,
    H16, H17, H18, H19, Hlist, H20, H21, H22, H23, HS, Hint.
  cbn [orb andb].
  unfold_methods. mcbn. rewrite Hline. repeat split.
Qed.

Lemma dtmf_received_witness :
  let s := set_ready true session0 in
  let r := loop_body ("received DTMF: '#' (duration=120)" ++ Py.CRLF) s in
  hooks (effects r) = [onDtmfReceived "#" 120].
Proof.
  intros s r.
  assert (Hc : "#"%char <> Py.LF) by discriminate.
  assert (Hd : (0 <= 120)%Z) by lia.
  assert (Hl : ("--- List of active calls (1): ---" isin _prev_output s)
               = false) by reflexivity.
  assert (Hp : _prev_output s
               <> "received DTMF: '" ++ String "#" "" ++ "' (duration="
                    ++ Py.str_of_int 120 ++ ")" ++ Py.CRLF)
    by (vm_compute; discriminate).
  exact (proj1 (proj2 (dtmf_received "#" 120 s Hc Hd Hl Hp))).
Defined.
